(** * extrair-categoria: the [/categorizar] pipeline of [main.py]

    A shallow embedding of the statement-categorisation endpoint: the two row
    parsers (the semicolon format of Itaú and the header-driven CSV of Nubank
    and others), the value and date normalisers, the remote classification
    adapter and the final serialisation step, followed by the properties of
    the specification that are settled against them.

    Python values are modelled as the program has them: a [str] is a sequence
    of Unicode code points, a [float] is an IEEE binary64 number (the kernel's
    primitive floats), exceptions are values of an error type threaded through
    a small state-and-error monad whose state is the log of the prompts sent
    to the remote classifier. *)

From Stdlib Require Import String Ascii NArith ZArith List Bool Lia.
From Stdlib Require Import Permutation DecimalString Floats Uint63.
Import ListNotations.

(** ** Python strings *)

Module Py.

(** A Python [str]: its code points, in order. *)
Definition str : Type := list N.

(** Reading of a string literal of the (UTF-8) source file.  [need] counts the
    continuation bytes still expected and [acc] holds the bits read so far. *)
Fixpoint decode_utf8 (need : nat) (acc : N) (bs : list N) : str :=
  match bs with
  | [] => []
  | b :: bs' =>
      match need with
      | O =>
          if (b <? 128)%N then b :: decode_utf8 0 0%N bs'
          else if (b <? 224)%N then decode_utf8 1 (b - 192)%N bs'
          else if (b <? 240)%N then decode_utf8 2 (b - 224)%N bs'
          else decode_utf8 3 (b - 240)%N bs'
      | S O => (acc * 64 + (b - 128))%N :: decode_utf8 0 0%N bs'
      | S n => decode_utf8 n (acc * 64 + (b - 128))%N bs'
      end
  end.

Definition py (s : string) : str :=
  decode_utf8 0 0%N (map N_of_ascii (list_ascii_of_string s)).

(** The newline character, which a Rocq literal cannot escape. *)
Definition nl : str := [10%N].

(** [a == b] on strings. *)
Fixpoint eqb (a b : str) : bool :=
  match a, b with
  | [], [] => true
  | x :: a', y :: b' => (x =? y)%N && eqb a' b'
  | _, _ => false
  end.

(** [str.isspace] on one character: the code points Python treats as
    whitespace. *)
Definition isspace (c : N) : bool :=
  ((9 <=? c) && (c <=? 13) || (28 <=? c) && (c <=? 32)
   || (c =? 133) || (c =? 160) || (c =? 5760)
   || (8192 <=? c) && (c <=? 8202)
   || (c =? 8232) || (c =? 8233) || (c =? 8239) || (c =? 8287)
   || (c =? 12288))%N.

Fixpoint lstrip (s : str) : str :=
  match s with
  | [] => []
  | c :: s' => if isspace c then lstrip s' else s
  end.

Definition rstrip (s : str) : str := rev (lstrip (rev s)).

(** [s.strip()] *)
Definition strip (s : str) : str := rstrip (lstrip s).

(** [s.split(sep)] for a separator of one character: never an empty list. *)
Fixpoint split (sep : N) (s : str) : list str :=
  match s with
  | [] => [[]]
  | c :: s' =>
      if (c =? sep)%N then [] :: split sep s'
      else match split sep s' with
           | p :: ps => (c :: p) :: ps
           | [] => [[c]]
           end
  end.

(** The line boundaries of [str.splitlines]. *)
Definition is_linebreak (c : N) : bool :=
  ((10 <=? c) && (c <=? 13) || (28 <=? c) && (c <=? 30)
   || (c =? 133) || (c =? 8232) || (c =? 8233))%N.

(** [cur] is the line being read, reversed; [after_cr] says that the last
    character was a carriage return, so that a line feed now belongs to the
    same boundary. *)
Fixpoint splitlines_from (after_cr : bool) (cur : str) (s : str) : list str :=
  match s with
  | [] => match cur with [] => [] | _ => [rev cur] end
  | c :: s' =>
      if after_cr && (c =? 10)%N then splitlines_from false cur s'
      else if is_linebreak c then
        rev cur :: splitlines_from (c =? 13)%N [] s'
      else splitlines_from false (c :: cur) s'
  end.

(** [s.splitlines()] *)
Definition splitlines (s : str) : list str := splitlines_from false [] s.

(** [enumerate(xs, start=1)] *)
Definition enumerate {A} (xs : list A) : list (nat * A) :=
  combine (seq 1 (length xs)) xs.

(** [s.replace(old, new)] for one-character [old] and [new]. *)
Definition replace (old new : N) (s : str) : str :=
  map (fun c => if (c =? old)%N then new else c) s.

(** [str.lower] on the Basic Latin and Latin-1 blocks; other code points are
    returned as they are.  Python lowers further code points, none of them to
    a letter of the literals this program compares a lowered string with
    (itau, entrada, transferência), so each of those comparisons has Python's
    outcome. *)
Definition lower_char (c : N) : N :=
  if ((65 <=? c) && (c <=? 90))%N then (c + 32)%N
  else if ((192 <=? c) && (c <=? 222) && negb (c =? 215))%N then (c + 32)%N
  else c.

Definition lower (s : str) : str := map lower_char s.

(** [sep.join(parts)] *)
Fixpoint join (sep : str) (parts : list str) : str :=
  match parts with
  | [] => []
  | [p] => p
  | p :: ps => p ++ sep ++ join sep ps
  end.

(** [str(n)] for a natural number. *)
Definition str_of_nat (n : nat) : str :=
  py (NilZero.string_of_uint (Nat.to_uint n)).

(** How an f-string renders a value that is a string or [None]. *)
Definition format_value (v : option str) : str :=
  match v with
  | Some s => s
  | None => py "None"
  end.

End Py.
Import Py.

(** ** Exceptions and the effect monad *)

(** The exceptions the endpoint meets.  Each is a subclass of Python's
    [Exception]; [RemoteError] stands for whatever the Groq client raises and
    carries its text. *)
Inductive exception : Type :=
| HTTPException (status_code : Z) (detail : str)
| AttributeError
| KeyError
| IndexError
| TypeError
| OverflowError
| ParserError
| ValidationError
| CsvError
| UnicodeEncodeError
| RemoteError (msg : str).

(** [str(e)], as the adapter embeds it in its error detail. *)
Definition exception_text (e : exception) : str :=
  match e with
  | HTTPException _ detail => detail
  | AttributeError => py "AttributeError"
  | KeyError => py "KeyError"
  | IndexError => py "list index out of range"
  | TypeError => py "TypeError"
  | OverflowError => py "OverflowError"
  | ParserError => py "ParserError"
  | ValidationError => py "ValidationError"
  | CsvError => py "CsvError"
  | UnicodeEncodeError => py "UnicodeEncodeError"
  | RemoteError msg => msg
  end.

Inductive result (A : Type) : Type :=
| Ret (a : A)
| Raise (e : exception).
Arguments Ret {A} a.
Arguments Raise {A} e.

(** The prompts sent to the remote classifier so far, oldest first. *)
Definition history : Type := list str.

(** A computation that may call the remote classifier and may raise. *)
Definition M (A : Type) : Type := history -> result A * history.

Definition ret {A} (a : A) : M A := fun h => (Ret a, h).

Definition raise {A} (e : exception) : M A := fun h => (Raise e, h).

Definition bind {A B} (m : M A) (k : A -> M B) : M B :=
  fun h =>
    match m h with
    | (Ret a, h') => k a h'
    | (Raise e, h') => (Raise e, h')
    end.

(** [try: m  except Exception as e: handler e] *)
Definition try_except {A} (m : M A) (handler : exception -> M A) : M A :=
  fun h =>
    match m h with
    | (Ret a, h') => (Ret a, h')
    | (Raise e, h') => handler e h'
    end.

(** A pure step that may raise. *)
Definition lift {A} (r : result A) : M A := fun h => (r, h).

Notation "x <- m ;; k" := (bind m (fun x => k))
  (at level 61, m at next level, right associativity).

(** [for x in xs: s = body x s], leaving at the first exception. *)
Fixpoint for_each {A S} (body : A -> S -> M S) (xs : list A) (s : S) : M S :=
  match xs with
  | [] => ret s
  | x :: rest => s' <- body x s ;; for_each body rest s'
  end.

(** ** Data model *)

(** The calendar date of a [datetime]; the time of day is not rendered. *)
Record datetime : Type := { year : N; month : N; day : N }.

(** Decimal digits of [n], at least [width] of them. *)
Definition zero_padded (width : nat) (n : N) : str :=
  let digits := str_of_nat (N.to_nat n) in
  repeat 48%N (width - length digits) ++ digits.

(** [dt.strftime("%Y/%m/%d")]: month and day in two digits; the year in
    decimal as the C library writes it, without padding, so in fewer than
    four digits before the year 1000. *)
Definition strftime_Ymd (dt : datetime) : str :=
  str_of_nat (N.to_nat (year dt)) ++ py "/" ++ zero_padded 2 (month dt)
  ++ py "/" ++ zero_padded 2 (day dt).

(** [class TransacaoCategorizada(BaseModel)] *)
Record TransacaoCategorizada : Type := {
  descricao : str;
  valor : float;
  tipo : str;
  categoria : str;
  data_transacao : str;
  id_transacao : option str;
  portador : str
}.

(** The constructor call: pydantic refuses [None] for a field declared [str];
    [id_transacao] alone is [Optional]. *)
Definition nova_transacao (descricao : option str) (valor : float)
    (tipo categoria : str) (data_transacao id_transacao : option str)
    (portador : str) : result TransacaoCategorizada :=
  match descricao, data_transacao with
  | Some d, Some dt =>
      Ret {| descricao := d; valor := valor; tipo := tipo;
             categoria := categoria; data_transacao := dt;
             id_transacao := id_transacao; portador := portador |}
  | _, _ => Raise ValidationError
  end.

(** The CSV answer: the header row, one line per transaction, and the file
    name of the attachment. *)
Record StreamingResponse : Type := {
  fieldnames : list str;
  body : list TransacaoCategorizada;
  filename : str
}.

(** What the remote classifier gives back for one request: the text of the
    first choice, or a failure (time-out, malformed or empty answer) with the
    text of the exception. *)
Inductive reply : Type :=
| Content (s : str)
| Failure (msg : str).

(** One record of [csv.DictReader]: the cells by column name, a cell being
    [None] where the line was shorter than the header. *)
Definition csv_row : Type := list (str * option str).

(** What reading a text with [csv.DictReader] gives: the value of
    [fieldnames] ([None] for an empty input) unless reading the header
    raises; the records in order, each with the value of [line_num] once it
    has been read; and how the iteration ends, [None] at the end of the
    input and [Some e] when the reader raises on a malformed line. *)
Record csv_reading : Type := {
  header : result (option (list str));
  records : list (nat * csv_row);
  stop : option exception
}.

(** The collaborators of the endpoint, which live outside this repository. *)
Record Externals : Type := {
  (** [float(s)]; [None] when it raises [ValueError]. *)
  float_of_str : str -> option float;
  (** [dateparser.parse(s, dayfirst=True, fuzzy=True)] *)
  dateutil_parse : str -> result datetime;
  (** [client.chat.completions.create(...)], read at
      [.choices[0].message.content]; it may depend on the requests made
      before. *)
  groq : history -> str -> reply;
  (** [csv.DictReader(io.StringIO(text))] *)
  DictReader : str -> csv_reading;
  (** The order in which a set of strings is iterated. *)
  set_order : list str -> list str
}.

(** [CATEGORY_KEYWORDS] *)
Definition CATEGORY_KEYWORDS : list (str * list str) :=
  [ (py "Alimentação",
      map py ["salário"; "supermercado"; "mercado"; "padaria"; "ataca";
              "atacadão"; "assai"; "hortifruti"; "açougue"; "Savegnago"]);
    (py "Transporte",
      map py ["posto"; "combustível"; "uber"; "99"; "estacionamento";
              "pedágio"]);
    (py "Moradia", map py ["aluguel"; "condomínio"; "imobiliária"]);
    (py "Utilidades",
      map py ["luz"; "água"; "gás"; "energia"; "sanepar"; "copel"]);
    (py "Saúde",
      map py ["drogaria"; "farmácia"; "hospital"; "farma"; "clínica";
              "laboratório"; "plano de saúde"]);
    (py "Educação", map py ["escola"; "universidade"; "curso"]);
    (py "Contas", map py ["tarifa"; "boleto"; "fatura"; "pagamento"]);
    (py "Entretenimento",
      map py ["netflix"; "cinema"; "restaurante"; "parque"; "mc donalds"]);
    (py "Investimentos", map py ["renda fixa"; "ações"; "resgate"]);
    (py "Doações", map py ["igreja"; "ong"; "contribuição"]);
    (py "Renda", map py ["recebimento"; "rendimento"]);
    (py "Transferência", map py ["pix"; "transferência"; "enviada"]) ]%string.

(** ** The endpoint *)

Section Endpoint.

Variable E : Externals.

(** The category-to-keywords table in force: [CATEGORY_KEYWORDS] in the
    program, a variable here so that two tables can be compared. *)
Variable keywords : list (str * list str).

(** [_formatar_data(data)] *)
Definition _formatar_data (data : option str) : M (option str) :=
  try_except
    (dt <- lift (match data with
                 | Some s => dateutil_parse E s
                 | None => Raise TypeError
                 end) ;;
     ret (Some (strftime_Ymd dt)))
    (fun _ => ret data).

(** The user message of the request. *)
Definition prompt (descricao : option str) (tipo : str) : str :=
  py "Você é um assistente especializado em finanças. "
  ++ py "Classifique a seguinte transação bancária em uma das categorias: "
  ++ join (py ", ") (map fst keywords) ++ py ", Outros." ++ nl
  ++ py "Descrição da transação: '" ++ format_value descricao ++ py "'" ++ nl
  ++ py "Tipo da transação: '" ++ tipo ++ py "'" ++ nl
  ++ py "Responda apenas com o nome da categoria.".

(** The remote call: the request is logged whether it succeeds or not. *)
Definition chat_completion (request : str) : M str :=
  fun h =>
    match groq E h request with
    | Content c => (Ret c, h ++ [request])
    | Failure msg => (Raise (RemoteError msg), h ++ [request])
    end.

(** [classificar_transacao(descricao, tipo)] *)
Definition classificar_transacao (descricao : option str) (tipo : str)
    : M str :=
  try_except
    (content <- chat_completion (prompt descricao tipo) ;;
     let categoria := strip content in
     (* Ajuste para transferências *)
     if eqb (lower categoria) (py "transferência") then
       ret (if eqb (lower tipo) (py "entrada")
            then py "Transferência recebida"
            else py "Transferência enviada")
     else
       ret (match categoria with [] => py "Outros" | _ => categoria end))
    (fun e =>
       raise (HTTPException 500 (py "Erro na Groq API: " ++ exception_text e))).

(** The detail of the error raised for an amount that does not parse. *)
Definition valor_invalido (linha : nat) : exception :=
  HTTPException 400 (py "Valor inválido na linha " ++ str_of_nat linha).

(** [try: valor = float(raw_valor.replace(',', '.'))]
    [except ValueError: raise HTTPException(400, ...)] *)
Definition parse_valor (raw_valor : str) (linha : nat) : M float :=
  match float_of_str E (replace 44 46 raw_valor) with
  | Some v => ret v
  | None => raise (valor_invalido linha)
  end.

(** ["Entrada" if valor > 0 else "Saída"] *)
Definition tipo_de (valor : float) : str :=
  if PrimFloat.ltb 0 valor then py "Entrada" else py "Saída".

(** The body of the loop over the lines of an Itaú statement. *)
Definition itau_linha (portador : str) (numbered : nat * str)
    (resultado : list TransacaoCategorizada)
    : M (list TransacaoCategorizada) :=
  let '(ln, line) := numbered in
  let parts := map strip (split 59 line) in
  if negb (length parts =? 3) then ret resultado (* continue *)
  else
    let data := nth 0 parts [] in
    let descricao := nth 1 parts [] in
    let raw_valor := nth 2 parts [] in
    valor <- parse_valor raw_valor ln ;;
    let tipo := tipo_de valor in
    categoria <- classificar_transacao (Some descricao) tipo ;;
    data_transacao <- _formatar_data (Some data) ;;
    t <- lift (nova_transacao (Some descricao) valor tipo categoria
                 data_transacao None portador) ;;
    ret (resultado ++ [t]).

(** [row[key]] *)
Definition getitem (row : csv_row) (key : str) : result (option str) :=
  match find (fun kv => eqb (fst kv) key) row with
  | Some (_, v) => Ret v
  | None => Raise KeyError
  end.

(** [row.get(key)] *)
Definition get (row : csv_row) (key : str) : option str :=
  match find (fun kv => eqb (fst kv) key) row with
  | Some (_, v) => v
  | None => None
  end.

(** [v.replace(...)] has no meaning on [None]. *)
Definition as_str (v : option str) : result str :=
  match v with
  | Some s => Ret s
  | None => Raise AttributeError
  end.

(** The body of the loop over the records of a CSV statement; [line_num] is
    the reader's line counter after the record was read. *)
Definition nubank_linha (portador : str) (rec : nat * csv_row)
    (resultado : list TransacaoCategorizada)
    : M (list TransacaoCategorizada) :=
  let '(line_num, row) := rec in
  cell <- lift (getitem row (py "Valor")) ;;
  raw_valor <- lift (as_str cell) ;;
  valor <- parse_valor raw_valor line_num ;;
  let tipo := tipo_de valor in
  descricao <- lift (getitem row (py "Descrição")) ;;
  categoria <- classificar_transacao descricao tipo ;;
  data <- lift (getitem row (py "Data")) ;;
  data_transacao <- _formatar_data data ;;
  t <- lift (nova_transacao descricao valor tipo categoria
               data_transacao (get row (py "Identificador")) portador) ;;
  ret (resultado ++ [t]).

(** [required = {'Data', 'Descrição', 'Valor', 'Identificador'}] *)
Definition required : list str :=
  [py "Data"; py "Descrição"; py "Valor"; py "Identificador"].

Definition contains (l : list str) (x : str) : bool := existsb (eqb x) l.

(** [s.issubset(l)] *)
Definition issubset (s l : list str) : bool := forallb (contains l) s.

(** [s - set(l)] *)
Definition difference (s l : list str) : list str :=
  filter (fun x => negb (contains l x)) s.

(** [reader.fieldnames or []] *)
Definition fieldnames_or_empty (names : option (list str)) : list str :=
  match names with
  | Some l => l
  | None => []
  end.

(** The detail of the error raised for a header without the required
    columns. *)
Definition colunas_faltando (faltando : list str) : exception :=
  HTTPException 400 (py "Colunas faltando: " ++ join (py ", ") faltando).

(** The branch of Itaú: one transaction per line of three fields. *)
Definition itau (portador text : str) : M (list TransacaoCategorizada) :=
  for_each (itau_linha portador) (enumerate (splitlines text)) [].

(** The other branch, Nubank ou outros CSV. *)
Definition nubank (portador text : str) : M (list TransacaoCategorizada) :=
  let reader := DictReader E text in
  names <- lift (header reader) ;;
  if negb (issubset required (fieldnames_or_empty names)) then
    let faltando :=
      set_order E (difference required (fieldnames_or_empty names)) in
    raise (colunas_faltando faltando)
  else
    resultado <- for_each (nubank_linha portador) (records reader) [] ;;
    match stop reader with
    | Some e => raise e
    | None => ret resultado
    end.

(** The keys of [resultado[0].dict()]. *)
Definition campos : list str :=
  map py ["descricao"; "valor"; "tipo"; "categoria"; "data_transacao";
          "id_transacao"; "portador"]%string.

(** [s.encode("latin-1")] goes through: how the response encodes the value
    of a header. *)
Definition latin1 (s : str) : bool := forallb (fun c => (c <=? 255)%N) s.

(** The value of the Content-Disposition header. *)
Definition content_disposition (banco : str) : str :=
  py "attachment; filename=categorias_" ++ banco ++ py ".csv".

(** Gera CSV de saída: the header row comes from the first transaction, and
    the response is built last, with the selector in one of its headers. *)
Definition serializar (banco : str) (resultado : list TransacaoCategorizada)
    : result StreamingResponse :=
  match resultado with
  | [] => Raise IndexError
  | _ :: _ =>
      if latin1 (content_disposition banco) then
        Ret {| fieldnames := campos; body := resultado;
               filename := py "categorias_" ++ banco ++ py ".csv" |}
      else Raise UnicodeEncodeError
  end.

(** [categorizar(file, banco, portador, config)], from the decoded [text] of
    the uploaded file on; [config] is not read. *)
Definition categorizar (banco portador text : str) : M StreamingResponse :=
  resultado <- (if eqb (lower banco) (py "itau")
                then itau portador text
                else nubank portador text) ;;
  lift (serializar banco resultado).

End Endpoint.

(** ** Reference collaborators

    Small executable stand-ins for the libraries, enough to run the endpoint
    on plain inputs: decimal literals, dates of three numbers with the year
    in full, CSV without quoting. *)

Module Demo.

(** The value of a run of ASCII digits. *)
Fixpoint digits_value (acc : Z) (s : str) : option Z :=
  match s with
  | [] => Some acc
  | c :: s' =>
      if ((48 <=? c) && (c <=? 57))%N
      then digits_value (acc * 10 + (Z.of_N c - 48)) s'
      else None
  end.

Definition float_of_Z (z : Z) : float := PrimFloat.of_uint63 (Uint63.of_Z z).

(** [float] on an optional sign, digits and at most one decimal point. *)
Definition decimal_float (s : str) : option float :=
  let s := strip s in
  let '(negative, s) :=
    match s with
    | 45%N :: r => (true, r)
    | 43%N :: r => (false, r)
    | _ => (false, s)
    end in
  let signed (x : float) := if negative then PrimFloat.opp x else x in
  match split 46 s with
  | [i] =>
      match i, digits_value 0 i with
      | _ :: _, Some m => Some (signed (float_of_Z m))
      | _, _ => None
      end
  | [i; f] =>
      match i ++ f, digits_value 0 (i ++ f) with
      | _ :: _, Some m =>
          Some (signed (PrimFloat.div (float_of_Z m)
                          (float_of_Z (10 ^ Z.of_nat (length f)))))
      | _, _ => None
      end
  | _ => None
  end.

(** A token of a date: its digits, when it has some and nothing else. *)
Definition date_number (token : str) : option Z :=
  match token with
  | [] => None
  | _ :: _ => digits_value 0 token
  end.

(** The date of year [y], month [m] and day [d], when there is one. *)
Definition make_date (y m d : Z) : result datetime :=
  if ((1 <=? d) && (d <=? 31) && (1 <=? m) && (m <=? 12)
      && (1 <=? y) && (y <=? 9999))%Z
  then Ret {| year := Z.to_N y; month := Z.to_N m; day := Z.to_N d |}
  else Raise ParserError.

(** Dates of three numbers between slashes or hyphens, the year written in
    full, read as the parser reads them with [dayfirst=True]: after a leading
    year comes the day when the last number can be a month; before a
    trailing year comes the day unless the second number cannot be a
    month. *)
Definition numeric_date (s : str) : result datetime :=
  match flat_map (split 45) (split 47 (strip s)) with
  | [a; b; c] =>
      match date_number a, date_number b, date_number c with
      | Some x, Some y, Some z =>
          if 2 <? length a then
            if (z <=? 12)%Z then make_date x z y else make_date x y z
          else if 2 <? length c then
            if ((12 <? x) || (y <=? 12))%Z then make_date z y x
            else make_date z x y
          else Raise ParserError
      | _, _, _ => Raise ParserError
      end
  | _ => Raise ParserError
  end.

(** [dict(zip(fieldnames, row))], the missing cells filled with [None]. *)
Fixpoint zip_cells (names : list str) (cells : list str) : csv_row :=
  match names, cells with
  | [], _ => []
  | k :: ks, [] => (k, None) :: zip_cells ks []
  | k :: ks, c :: cs => (k, Some c) :: zip_cells ks cs
  end.

(** The records after the header.  A blank line gives no record, and, as in
    [DictReader.__next__], the line counter is the one of the first line
    fetched for the record. *)
Fixpoint plain_records (names : list str) (fetched : option nat)
    (lines : list (nat * str)) : list (nat * csv_row) :=
  match lines with
  | [] => []
  | (n, line) :: rest =>
      let line_num := match fetched with Some k => k | None => n end in
      match line with
      | [] => plain_records names (Some line_num) rest
      | _ :: _ =>
          (line_num, zip_cells names (split 44 line))
          :: plain_records names None rest
      end
  end.

(** [csv.DictReader] on text without quotes. *)
Definition plain_DictReader (text : str) : csv_reading :=
  match enumerate (splitlines text) with
  | [] => {| header := Ret None; records := []; stop := None |}
  | (_, first) :: rest =>
      let names := match first with [] => [] | _ :: _ => split 44 first end in
      {| header := Ret (Some names);
         records := plain_records names None rest;
         stop := None |}
  end.

(** A classifier that answers every request with [answer]. *)
Definition constant_groq (answer : str) : history -> str -> reply :=
  fun _ _ => Content answer.

(** A classifier that fails on its first request and answers [answer] from
    then on. *)
Definition failing_first_groq (answer : str) : history -> str -> reply :=
  fun h _ =>
    match h with
    | [] => Failure (py "Request timed out.")
    | _ :: _ => Content answer
    end.

Definition externals (oracle : history -> str -> reply) : Externals :=
  {| float_of_str := decimal_float; dateutil_parse := numeric_date;
     groq := oracle; DictReader := plain_DictReader;
     set_order := fun l => l |}.

(** The collaborators above with a classifier that always answers
    Transporte, and with one that fails on the first request. *)
Definition answering : Externals := externals (constant_groq (py "Transporte")).

Definition timing_out : Externals :=
  externals (failing_first_groq (py "Transporte")).

(** A classifier that answers with the transfer category, in capitals and
    followed by a line break. *)
Definition transferring : Externals :=
  externals (constant_groq (py "TRANSFERÊNCIA" ++ nl)).

(** A CSV statement of one record, its description between spaces. *)
Definition csv_statement : str :=
  py "Data,Descrição,Valor,Identificador" ++ nl
  ++ py "2024-03-04, Uber viagem ,-32.00,abc123".

(** A CSV statement whose header has neither amount nor identifier. *)
Definition csv_without_columns : str :=
  py "Data,Descrição" ++ nl ++ py "2024-03-04,Uber viagem".

(** An Itaú statement of two lines of three fields and a footer; the amount
    of the second line is not a number. *)
Definition itau_statement : str :=
  py "04/03/2024; Supermercado Central ;-125,50" ++ nl
  ++ py "05/03/2024;Uber viagem;abc" ++ nl
  ++ py "Saldo final;10,00".

(** An Itaú statement in which no line has three fields. *)
Definition itau_footer_only : str :=
  py "Extrato de conta" ++ nl ++ py "Saldo final;10,00".

End Demo.

(** ** Notions used in the statements *)

(** [f] occurs in [s] as a substring. *)
Definition occurs_in (f s : str) : Prop := exists a b, s = a ++ f ++ b.

(** The element of [l] that first satisfies [p], with the elements before
    it. *)
Fixpoint split_at_first {A} (p : A -> bool) (l : list A)
    : option (list A * A) :=
  match l with
  | [] => None
  | x :: rest =>
      if p x then Some ([], x)
      else match split_at_first p rest with
           | Some (before, y) => Some (x :: before, y)
           | None => None
           end
  end.

(** A line of an Itaú statement has exactly three fields. *)
Definition three_fields (line : str) : bool :=
  length (map strip (split 59 line)) =? 3.

(** [float] refuses the raw amount [raw_valor]. *)
Definition amount_fails (E : Externals) (raw_valor : str) : bool :=
  match float_of_str E (replace 44 46 raw_valor) with
  | Some _ => false
  | None => true
  end.

(** A numbered line of an Itaú statement whose amount does not parse. *)
Definition itau_bad (E : Externals) (numbered : nat * str) : bool :=
  three_fields (snd numbered)
  && amount_fails E (nth 2 (map strip (split 59 (snd numbered))) []).

(** A record of a CSV statement whose amount is a string that does not
    parse. *)
Definition nubank_bad (E : Externals) (rec : nat * csv_row) : bool :=
  match getitem (snd rec) (py "Valor") with
  | Ret (Some raw_valor) => amount_fails E raw_valor
  | _ => false
  end.

(** The header of a CSV statement has the four required columns. *)
Definition header_ok (E : Externals) (text : str) : bool :=
  match header (DictReader E text) with
  | Ret names => issubset required (fieldnames_or_empty names)
  | Raise _ => false
  end.

(** What an invocation gives apart from the name of the attachment. *)
Definition outcome (r : result StreamingResponse * history)
    : result (list str * list TransacaoCategorizada) * history :=
  (match fst r with
   | Ret resp => Ret (fieldnames resp, body resp)
   | Raise e => Raise e
   end, snd r).

(** The abort with [e] of a run whose part [before] went through; when
    [before] raised, its own exception stands. *)
Definition then_raise {A B} (before : result A * history) (e : exception)
    : result B * history :=
  match before with
  | (Ret _, h) => (Raise e, h)
  | (Raise e', h) => (Raise e', h)
  end.

(** [s] is made of [width] decimal digits. *)
Definition is_digits (width : nat) (s : str) : bool :=
  (length s =? width) && forallb (fun c => (48 <=? c) && (c <=? 57))%N s.

(** The number of occurrences of the character [c] in [s]. *)
Fixpoint count_char (c : N) (s : str) : nat :=
  match s with
  | [] => 0
  | x :: s' => (if (x =? c)%N then 1 else 0) + count_char c s'
  end.

(** The request the adapter makes for the transaction [t]. *)
Definition request_of (keywords : list (str * list str))
    (t : TransacaoCategorizada) : str :=
  prompt keywords (Some (descricao t)) (tipo t).

(** What the date normaliser keeps for the raw date [data]. *)
Definition normalised_date (E : Externals) (data : str) : str :=
  match dateutil_parse E data with
  | Ret dt => strftime_Ymd dt
  | Raise _ => data
  end.

(** A category the adapter may hand back: not empty, and not the bare
    transfer category in any letter case. *)
Definition final_category (c : str) : Prop :=
  c <> [] /\ eqb (lower c) (py "transferência") = false.

(** The transaction [t] is the one made from the three fields of [line] for
    the holder [holder]. *)
Definition itau_row (E : Externals) (holder : str) (line : str)
    (t : TransacaoCategorizada) : Prop :=
  let parts := map strip (split 59 line) in
  descricao t = nth 1 parts []
  /\ float_of_str E (replace 44 46 (nth 2 parts [])) = Some (valor t)
  /\ tipo t = tipo_de (valor t)
  /\ data_transacao t = normalised_date E (nth 0 parts [])
  /\ id_transacao t = None
  /\ portador t = holder
  /\ final_category (categoria t).

(** The transaction [t] is the one made from the cells of the record [row]
    for the holder [holder]. *)
Definition nubank_row (E : Externals) (holder : str) (row : csv_row)
    (t : TransacaoCategorizada) : Prop :=
  getitem row (py "Descrição") = Ret (Some (descricao t))
  /\ (exists raw_valor,
         getitem row (py "Valor") = Ret (Some raw_valor)
         /\ float_of_str E (replace 44 46 raw_valor) = Some (valor t))
  /\ tipo t = tipo_de (valor t)
  /\ (exists data,
         getitem row (py "Data") = Ret (Some data)
         /\ data_transacao t = normalised_date E data)
  /\ id_transacao t = get row (py "Identificador")
  /\ portador t = holder
  /\ final_category (categoria t).

(** An Itaú statement of two lines of three fields around a footer. *)
Definition itau_two_lines : str :=
  py "04/03/2024; Supermercado Central ;-125,50" ++ nl
  ++ py "Saldo final;10,00" ++ nl
  ++ py "05/03/2024;Salario;3000".

(** A CSV statement whose only record stops after its second cell. *)
Definition short_csv_statement : str :=
  py "Data,Descrição,Valor,Identificador" ++ nl ++ py "2024-03-04,Uber viagem".

(** A CSV statement whose amount column comes first and whose only record
    stops after the date. *)
Definition csv_without_description : str :=
  py "Valor,Data,Descrição,Identificador" ++ nl ++ py "-32.00,04/03/2024".

(** ** Strings *)

Lemma eqb_eq (a b : str) : eqb a b = true <-> a = b.
Proof.
  revert b; induction a as [|x a IH]; intros [|y b]; simpl;
    try (split; [discriminate | discriminate]); try tauto.
  rewrite andb_true_iff, N.eqb_eq, IH.
  split; [intros [-> ->]; reflexivity | intros H; injection H; auto].
Qed.

Lemma eqb_refl (a : str) : eqb a a = true.
Proof. apply eqb_eq; reflexivity. Qed.

Lemma eqb_neq (a b : str) : eqb a b = false <-> a <> b.
Proof.
  rewrite <- eqb_eq. destruct (eqb a b); split; congruence.
Qed.

Lemma contains_In (l : list str) (x : str) : contains l x = true <-> In x l.
Proof.
  unfold contains. rewrite existsb_exists. split.
  - intros (y & Hy & Heq). apply eqb_eq in Heq. subst; assumption.
  - intros H. exists x. split; [assumption | apply eqb_refl].
Qed.

Lemma occurs_in_join (sep f : str) (l : list str) :
  In f l -> occurs_in f (join sep l).
Proof.
  induction l as [|p ps IH]; [contradiction|].
  intros [->|Hin].
  - destruct ps as [|q qs].
    + exists [], []. simpl. now rewrite app_nil_r.
    + exists [], (sep ++ join sep (q :: qs)). reflexivity.
  - destruct ps as [|q qs]; [contradiction|].
    destruct (IH Hin) as (a & b & Hab).
    exists (p ++ sep ++ a), b.
    change (join sep (p :: q :: qs)) with (p ++ sep ++ join sep (q :: qs)).
    rewrite Hab. now rewrite <- !app_assoc.
Qed.

Lemma occurs_in_app_r (f a s : str) : occurs_in f s -> occurs_in f (a ++ s).
Proof.
  intros (x & y & ->). exists (a ++ x), y. now rewrite <- app_assoc.
Qed.

Lemma nth_map_strip (n : nat) (l : list str) :
  nth n (map strip l) [] = strip (nth n l []).
Proof. exact (map_nth strip l [] n). Qed.

Lemma latin1_content_disposition (banco : str) :
  latin1 (content_disposition banco) = latin1 banco.
Proof.
  assert (H1 : latin1 (py "attachment; filename=categorias_") = true)
    by (vm_compute; reflexivity).
  assert (H2 : latin1 (py ".csv") = true) by (vm_compute; reflexivity).
  unfold content_disposition, latin1 in *.
  rewrite !forallb_app, H1, H2. cbn [andb]. apply andb_true_r.
Qed.

Lemma lower_char_latin1 (c : N) :
  (lower_char c <=? 255)%N = true -> (c <=? 255)%N = true.
Proof.
  unfold lower_char. rewrite !N.leb_le.
  destruct ((65 <=? c) && (c <=? 90))%N; [lia|].
  destruct ((192 <=? c) && (c <=? 222) && negb (c =? 215))%N; lia.
Qed.

Lemma lower_latin1 (s : str) : latin1 (lower s) = true -> latin1 s = true.
Proof.
  unfold latin1, lower. induction s as [|c s IH]; [reflexivity|].
  cbn [map forallb]. rewrite !andb_true_iff. intros [Hc Hs].
  split; [now apply lower_char_latin1 | now apply IH].
Qed.

(** A selector of the Itaú branch can always be written in a header. *)
Lemma itau_selector_latin1 (banco : str) :
  eqb (lower banco) (py "itau") = true -> latin1 banco = true.
Proof.
  intros Hb. apply eqb_eq in Hb. apply lower_latin1. rewrite Hb.
  vm_compute; reflexivity.
Qed.

Lemma serializar_latin1 (banco : str) (t : TransacaoCategorizada)
    (ts : list TransacaoCategorizada) :
  latin1 banco = true ->
  serializar banco (t :: ts)
  = Ret {| fieldnames := campos; body := t :: ts;
           filename := py "categorias_" ++ banco ++ py ".csv" |}.
Proof.
  intros Hl. unfold serializar. now rewrite latin1_content_disposition, Hl.
Qed.

Lemma serializar_not_latin1 (banco : str) (t : TransacaoCategorizada)
    (ts : list TransacaoCategorizada) :
  latin1 banco = false ->
  serializar banco (t :: ts) = Raise UnicodeEncodeError.
Proof.
  intros Hl. unfold serializar. now rewrite latin1_content_disposition, Hl.
Qed.

(** ** The loop *)

Section Loop.

Context {A S : Type} (body : A -> S -> M S).

Lemma for_each_app (xs ys : list A) (s : S) (h : history) :
  for_each body (xs ++ ys) s h =
  match for_each body xs s h with
  | (Ret s', h') => for_each body ys s' h'
  | (Raise e, h') => (Raise e, h')
  end.
Proof.
  revert s h; induction xs as [|x xs IH]; intros s h; simpl.
  - reflexivity.
  - unfold bind. destruct (body x s h) as [[s'|e] h']; [apply IH | reflexivity].
Qed.

(** A property of the accumulator kept by every step is kept by the loop. *)
Lemma for_each_invariant (P : S -> Prop) :
  (forall x s h s' h', P s -> body x s h = (Ret s', h') -> P s') ->
  forall xs s h s' h',
    P s -> for_each body xs s h = (Ret s', h') -> P s'.
Proof.
  intros Hstep xs; induction xs as [|x xs IH]; intros s h s' h' Hs Hrun.
  - simpl in Hrun. injection Hrun as <- _. assumption.
  - simpl in Hrun. unfold bind in Hrun.
    destruct (body x s h) as [[s1|e] h1] eqn:Hx; [|discriminate].
    eapply IH; [eapply Hstep; eassumption | eassumption].
Qed.

(** The elements on which the step does nothing can be left out. *)
Lemma for_each_filter (keep : A -> bool) :
  (forall x s h, keep x = false -> body x s h = (Ret s, h)) ->
  forall xs s h,
    for_each body xs s h = for_each body (filter keep xs) s h.
Proof.
  intros Hskip xs; induction xs as [|x xs IH]; intros s h; simpl.
  - reflexivity.
  - destruct (keep x) eqn:Hk; simpl; unfold bind.
    + destruct (body x s h) as [[s1|e] h1]; [apply IH | reflexivity].
    + rewrite (Hskip x s h Hk). apply IH.
Qed.

(** Once a step raises whatever the state, the loop raises. *)
Lemma for_each_raises (xs : list A) (x : A) :
  In x xs ->
  (forall s h, exists e h', body x s h = (Raise e, h')) ->
  forall s h, exists e h', for_each body xs s h = (Raise e, h').
Proof.
  intros Hin Hx. induction xs as [|y xs IH]; [contradiction|].
  intros s h. simpl. unfold bind.
  destruct (body y s h) as [[s1|e] h1] eqn:Hy.
  - destruct Hin as [->|Hin].
    + destruct (Hx s h) as (e & h' & He). congruence.
    + apply IH; assumption.
  - eauto.
Qed.

(** The loop up to an element whose step raises [e] in every state. *)
Lemma for_each_until (before after : list A) (x : A) (e : exception) :
  (forall s h, body x s h = (Raise e, h)) ->
  forall s h,
    for_each body (before ++ x :: after) s h =
    then_raise (for_each body before s h) e.
Proof.
  intros Hx s h. rewrite for_each_app.
  destruct (for_each body before s h) as [[s1|e1] h1]; simpl.
  - unfold bind. now rewrite Hx.
  - reflexivity.
Qed.

End Loop.

Lemma split_at_first_spec {A} (p : A -> bool) (l before : list A) (x : A) :
  split_at_first p l = Some (before, x) ->
  exists after,
    l = before ++ x :: after /\ p x = true
    /\ Forall (fun y => p y = false) before.
Proof.
  revert before; induction l as [|y l IH]; intros before H; simpl in H.
  - discriminate.
  - destruct (p y) eqn:Hy.
    + injection H as <- <-. exists l. auto.
    + destruct (split_at_first p l) as [[b z]|] eqn:Hs; [|discriminate].
      injection H as <- <-.
      destruct (IH b eq_refl) as (after & -> & Hx & Hb).
      exists after. auto.
Qed.

(** ** The adapters, step by step *)

Section Steps.

Variable E : Externals.
Variable keywords : list (str * list str).

(** The category kept for an answer of the remote classifier. *)
Lemma classificar_transacao_run (descricao : option str) (tipo : str)
    (h : history) :
  classificar_transacao E keywords descricao tipo h =
  (match groq E h (prompt keywords descricao tipo) with
   | Content content =>
       Ret (if eqb (lower (strip content)) (py "transferência")
            then if eqb (lower tipo) (py "entrada")
                 then py "Transferência recebida"
                 else py "Transferência enviada"
            else match strip content with
                 | [] => py "Outros"
                 | _ => strip content
                 end)
   | Failure msg =>
       Raise (HTTPException 500 (py "Erro na Groq API: " ++ msg))
   end, h ++ [prompt keywords descricao tipo]).
Proof.
  unfold classificar_transacao, try_except, bind, chat_completion.
  destruct (groq E h (prompt keywords descricao tipo)) as [content|msg].
  - destruct (eqb (lower (strip content)) (py "transferência")); reflexivity.
  - reflexivity.
Qed.

Lemma formatar_data_run (data : option str) (h : history) :
  _formatar_data E data h =
  (Ret (match data with
        | Some s =>
            match dateutil_parse E s with
            | Ret dt => Some (strftime_Ymd dt)
            | Raise _ => data
            end
        | None => None
        end), h).
Proof.
  unfold _formatar_data, try_except, bind, lift, ret.
  destruct data as [s|]; [|reflexivity].
  destruct (dateutil_parse E s); reflexivity.
Qed.

Lemma formatar_data_some (s : str) (h : history) :
  exists s', _formatar_data E (Some s) h = (Ret (Some s'), h).
Proof.
  rewrite formatar_data_run. destruct (dateutil_parse E s); eauto.
Qed.

Lemma parse_valor_fails (raw_valor : str) (linha : nat) (h : history) :
  amount_fails E raw_valor = true ->
  parse_valor E raw_valor linha h = (Raise (valor_invalido linha), h).
Proof.
  unfold amount_fails, parse_valor.
  destruct (float_of_str E (replace 44 46 raw_valor)); [discriminate|reflexivity].
Qed.

Lemma parse_valor_ok (raw_valor : str) (linha : nat) (h : history) :
  amount_fails E raw_valor = false ->
  exists v, float_of_str E (replace 44 46 raw_valor) = Some v
            /\ parse_valor E raw_valor linha h = (Ret v, h).
Proof.
  unfold amount_fails, parse_valor.
  destruct (float_of_str E (replace 44 46 raw_valor)) as [v|];
    [eauto | discriminate].
Qed.

(** A line without three fields leaves the loop as it found it. *)
Lemma itau_linha_skip (portador : str) (numbered : nat * str)
    (resultado : list TransacaoCategorizada) (h : history) :
  three_fields (snd numbered) = false ->
  itau_linha E keywords portador numbered resultado h = (Ret resultado, h).
Proof.
  destruct numbered as [ln line]. unfold three_fields, itau_linha. simpl snd.
  intros ->. reflexivity.
Qed.

(** A line of three fields stops the batch or adds one transaction, whose
    fields are those of the line. *)
Lemma itau_linha_three (portador : str) (ln : nat) (line : str)
    (resultado : list TransacaoCategorizada) (h : history) :
  three_fields line = true ->
  (exists e h', itau_linha E keywords portador (ln, line) resultado h
                = (Raise e, h'))
  \/ (exists t h',
        itau_linha E keywords portador (ln, line) resultado h
        = (Ret (resultado ++ [t]), h')
        /\ descricao t = strip (nth 1 (split 59 line) [])
        /\ float_of_str E
             (replace 44 46 (nth 2 (map strip (split 59 line)) []))
           = Some (valor t)
        /\ tipo t = tipo_de (valor t)).
Proof.
  unfold three_fields, itau_linha. intros ->. cbn [negb].
  unfold bind, lift, parse_valor.
  destruct (float_of_str E _) as [v|] eqn:Hv;
    unfold ret, raise; cbv beta iota; [|left; eauto].
  rewrite classificar_transacao_run.
  destruct (groq E h _) as [content|msg]; [|left; eauto].
  rewrite formatar_data_run. right.
  destruct (dateutil_parse E _); cbn [nova_transacao];
    (eexists; eexists; split; [reflexivity|]); cbn [descricao valor tipo];
    (split; [apply nth_map_strip|split; reflexivity]).
Qed.

(** The same for a record of a CSV statement: the description is the cell as
    it was read. *)
Lemma nubank_linha_cases (portador : str) (rec : nat * csv_row)
    (resultado : list TransacaoCategorizada) (h : history) :
  (exists e h', nubank_linha E keywords portador rec resultado h
                = (Raise e, h'))
  \/ (exists t h',
        nubank_linha E keywords portador rec resultado h
        = (Ret (resultado ++ [t]), h')
        /\ getitem (snd rec) (py "Descrição") = Ret (Some (descricao t))
        /\ tipo t = tipo_de (valor t)).
Proof.
  destruct rec as [line_num row]. unfold nubank_linha. simpl snd.
  unfold bind, lift, parse_valor.
  destruct (getitem row (py "Valor")) as [[raw_valor|]|e];
    cbn [as_str]; [|left; eauto|left; eauto].
  destruct (float_of_str E _) as [v|];
    unfold ret, raise; cbv beta iota; [|left; eauto].
  destruct (getitem row (py "Descrição")) as [d|e]; [|left; eauto].
  rewrite classificar_transacao_run.
  destruct (groq E h _) as [content|msg]; [|left; eauto].
  destruct (getitem row (py "Data")) as [dt|e]; [|left; eauto].
  rewrite formatar_data_run.
  destruct d as [d|]; [|left; cbn [nova_transacao]; eauto].
  destruct dt as [s|]; [|left; cbn [nova_transacao]; eauto].
  right. destruct (dateutil_parse E s); cbn [nova_transacao];
    (eexists; eexists; split; [reflexivity|]); cbn [descricao valor tipo];
    split; reflexivity.
Qed.

(** The CSV branch once the header is complete: the loop over the records,
    then the end of the reading. *)
Lemma nubank_complete_header (portador text : str) (h : history) :
  header_ok E text = true ->
  nubank E keywords portador text h =
  match for_each (nubank_linha E keywords portador)
          (records (DictReader E text)) [] h with
  | (Ret resultado, h') =>
      (match stop (DictReader E text) with
       | Some e => Raise e
       | None => Ret resultado
       end, h')
  | (Raise e, h') => (Raise e, h')
  end.
Proof.
  unfold header_ok, nubank, bind, lift. intros Hh.
  destruct (header (DictReader E text)) as [names|e]; [|discriminate].
  rewrite Hh. cbn [negb].
  destruct (for_each _ _ [] h) as [[resultado|e] h']; [|reflexivity].
  destruct (stop (DictReader E text)); reflexivity.
Qed.

Lemma nubank_incomplete_header (portador text : str) (h : history) :
  header_ok E text = false ->
  exists e, nubank E keywords portador text h = (Raise e, h).
Proof.
  unfold header_ok, nubank, bind, lift. intros Hh.
  destruct (header (DictReader E text)) as [names|e]; [|eauto].
  rewrite Hh. cbn [negb]. unfold raise. eauto.
Qed.

(** The CSV branch returns only through its loop. *)
Lemma nubank_returns (portador text : str) (h h' : history)
    (resultado : list TransacaoCategorizada) :
  nubank E keywords portador text h = (Ret resultado, h') ->
  for_each (nubank_linha E keywords portador)
    (records (DictReader E text)) [] h = (Ret resultado, h').
Proof.
  destruct (header_ok E text) eqn:Hh.
  - rewrite nubank_complete_header by exact Hh.
    destruct (for_each _ _ [] h) as [[r|e] h1]; [|discriminate].
    destruct (stop (DictReader E text)); [discriminate|]. auto.
  - destruct (nubank_incomplete_header portador text h Hh) as (e & ->).
    discriminate.
Qed.

End Steps.

(** ** Format selection *)

(** C1, as the program has it: the selector is never refused.  An invocation
    whose selector is not itau, letter case apart, goes through the
    header-driven CSV branch; when the selector can be written in the
    Content-Disposition header, that is in Latin-1, it gives what the
    selector nubank gives on the same file: the same transactions under the
    same header, or the same error, after the same requests to the
    classifier. *)
Theorem other_selectors_take_csv_branch (E : Externals)
    (keywords : list (str * list str)) (banco portador text : str)
    (h : history) :
  eqb (lower banco) (py "itau") = false ->
  latin1 banco = true ->
  outcome (categorizar E keywords banco portador text h)
  = outcome (categorizar E keywords (py "nubank") portador text h).
Proof.
  intros Hb Hl. unfold categorizar. rewrite Hb.
  replace (eqb (lower (py "nubank")) (py "itau")) with false
    by (vm_compute; reflexivity).
  unfold outcome, bind, lift.
  destruct (nubank E keywords portador text h) as [[resultado|e] h'].
  - destruct resultado as [|t ts]; [reflexivity|].
    rewrite (serializar_latin1 banco t ts Hl).
    rewrite (serializar_latin1 (py "nubank") t ts)
      by (vm_compute; reflexivity).
    reflexivity.
  - reflexivity.
Qed.

Lemma other_selectors_take_csv_branch_witness :
  outcome (categorizar Demo.answering CATEGORY_KEYWORDS (py "bradesco")
             (py "Ana") Demo.csv_statement [])
  = outcome (categorizar Demo.answering CATEGORY_KEYWORDS (py "nubank")
               (py "Ana") Demo.csv_statement []).
Proof.
  apply (other_selectors_take_csv_branch Demo.answering CATEGORY_KEYWORDS
           (py "bradesco") (py "Ana") Demo.csv_statement []).
  - vm_compute; reflexivity.
  - vm_compute; reflexivity.
Defined.

(** A selector with a character outside Latin-1 goes through the same
    branch, and the response cannot be built for the table it gathers. *)
Lemma unencodable_selector_fails_at_response (E : Externals)
    (keywords : list (str * list str)) (banco portador text : str)
    (h h' : history) (t : TransacaoCategorizada)
    (ts : list TransacaoCategorizada) :
  eqb (lower banco) (py "itau") = false ->
  latin1 banco = false ->
  nubank E keywords portador text h = (Ret (t :: ts), h') ->
  categorizar E keywords banco portador text h
  = (Raise UnicodeEncodeError, h').
Proof.
  intros Hb Hl Hrun. unfold categorizar, bind, lift. rewrite Hb, Hrun.
  now rewrite serializar_not_latin1.
Qed.

(** C1, as stated, fails: the selector bradesco names neither format, and the
    invocation completes with the transaction of the file instead of an
    input-shape error. *)
Lemma unknown_selector_is_processed :
  eqb (lower (py "bradesco")) (py "itau") = false
  /\ eqb (lower (py "bradesco")) (py "nubank") = false
  /\ fst (categorizar Demo.answering CATEGORY_KEYWORDS (py "bradesco")
            (py "Ana") Demo.csv_statement [])
     = Ret {| fieldnames := campos;
              body := [ {| descricao := py " Uber viagem ";
                           valor := (-32)%float;
                           tipo := py "Saída";
                           categoria := py "Transporte";
                           data_transacao := py "2024/04/03";
                           id_transacao := Some (py "abc123");
                           portador := py "Ana" |} ];
              filename := py "categorias_bradesco.csv" |}.
Proof. repeat split; vm_compute; reflexivity. Qed.

(** ** Direction *)

Lemma entrada_is_not_saida : py "Entrada" <> py "Saída".
Proof. vm_compute. discriminate. Qed.

Lemma tipo_de_spec (v : float) :
  (tipo_de v = py "Entrada" <-> PrimFloat.ltb 0 v = true)
  /\ (tipo_de v = py "Saída" <-> PrimFloat.ltb 0 v = false).
Proof.
  unfold tipo_de. pose proof entrada_is_not_saida as Hne.
  destruct (PrimFloat.ltb 0 v); split; split; intros H;
    congruence || (symmetry in H; contradiction) || contradiction.
Qed.

(** The direction of every transaction gathered by either loop is the one
    of its amount. *)
Lemma itau_linha_tipo (E : Externals) (keywords : list (str * list str))
    (portador : str) (numbered : nat * str)
    (s s' : list TransacaoCategorizada) (h h' : history) :
  Forall (fun t => tipo t = tipo_de (valor t)) s ->
  itau_linha E keywords portador numbered s h = (Ret s', h') ->
  Forall (fun t => tipo t = tipo_de (valor t)) s'.
Proof.
  intros Hs Hrun. destruct numbered as [ln line].
  destruct (three_fields line) eqn:H3.
  - destruct (itau_linha_three E keywords portador ln line s h H3)
      as [(e & h1 & Hr)|(t & h1 & Hr & _ & _ & Ht)];
      rewrite Hr in Hrun; [discriminate|].
    injection Hrun as <- _. apply Forall_app. auto.
  - rewrite itau_linha_skip in Hrun by exact H3.
    injection Hrun as <- _. assumption.
Qed.

Lemma nubank_linha_tipo (E : Externals) (keywords : list (str * list str))
    (portador : str) (rec : nat * csv_row)
    (s s' : list TransacaoCategorizada) (h h' : history) :
  Forall (fun t => tipo t = tipo_de (valor t)) s ->
  nubank_linha E keywords portador rec s h = (Ret s', h') ->
  Forall (fun t => tipo t = tipo_de (valor t)) s'.
Proof.
  intros Hs Hrun.
  destruct (nubank_linha_cases E keywords portador rec s h)
    as [(e & h1 & Hr)|(t & h1 & Hr & _ & Ht)];
    rewrite Hr in Hrun; [discriminate|].
  injection Hrun as <- _. apply Forall_app. auto.
Qed.

(** The transactions an invocation hands to serialisation. *)
Lemma categorizar_body (E : Externals) (keywords : list (str * list str))
    (banco portador text : str) (h h' : history) (resp : StreamingResponse) :
  categorizar E keywords banco portador text h = (Ret resp, h') ->
  (if eqb (lower banco) (py "itau")
   then itau E keywords portador text
   else nubank E keywords portador text) h = (Ret (body resp), h').
Proof.
  unfold categorizar, bind, lift.
  destruct ((if eqb (lower banco) (py "itau")
             then itau E keywords portador text
             else nubank E keywords portador text) h)
    as [[resultado|e] h1]; [|discriminate].
  destruct resultado as [|t ts]; [discriminate|].
  unfold serializar. destruct (latin1 _); [|discriminate].
  intros H. injection H as <- <-. reflexivity.
Qed.

(** C2: in the table an invocation returns, for either format, a transaction
    is an Entrada exactly when its amount is greater than zero and a Saída
    exactly when it is not (zero included): the direction is [tipo_de] of the
    amount and of nothing else. *)
Theorem direction_follows_amount (E : Externals)
    (keywords : list (str * list str)) (banco portador text : str)
    (h h' : history) (resp : StreamingResponse) :
  categorizar E keywords banco portador text h = (Ret resp, h') ->
  Forall (fun t =>
            tipo t = tipo_de (valor t)
            /\ (tipo t = py "Entrada" <-> PrimFloat.ltb 0 (valor t) = true)
            /\ (tipo t = py "Saída" <-> PrimFloat.ltb 0 (valor t) = false))
         (body resp).
Proof.
  intros Hrun. apply categorizar_body in Hrun.
  assert (Ht : Forall (fun t => tipo t = tipo_de (valor t)) (body resp)).
  { destruct (eqb (lower banco) (py "itau")).
    - unfold itau in Hrun.
      eapply for_each_invariant; [|apply Forall_nil|exact Hrun].
      intros; eapply itau_linha_tipo; eassumption.
    - apply nubank_returns in Hrun.
      eapply for_each_invariant; [|apply Forall_nil|exact Hrun].
      intros; eapply nubank_linha_tipo; eassumption. }
  eapply Forall_impl; [|exact Ht].
  intros t Heq. split; [exact Heq|]. rewrite Heq. apply tipo_de_spec.
Qed.

Lemma direction_follows_amount_witness :
  exists resp h',
    categorizar Demo.answering CATEGORY_KEYWORDS (py "nubank") (py "Ana")
      Demo.csv_statement [] = (Ret resp, h')
    /\ Forall (fun t =>
                 tipo t = tipo_de (valor t)
                 /\ (tipo t = py "Entrada"
                     <-> PrimFloat.ltb 0 (valor t) = true)
                 /\ (tipo t = py "Saída"
                     <-> PrimFloat.ltb 0 (valor t) = false))
              (body resp).
Proof.
  eexists; eexists; split.
  - vm_compute; reflexivity.
  - eapply (direction_follows_amount Demo.answering CATEGORY_KEYWORDS
              (py "nubank") (py "Ana") Demo.csv_statement []).
    vm_compute; reflexivity.
Defined.

(** ** Amounts that do not parse *)

Lemma then_raise_raises {A B} (before : result A * history) (e : exception) :
  exists e' h', @then_raise A B before e = (Raise e', h').
Proof. destruct before as [[a|e1] h1]; simpl; eauto. Qed.

Lemma itau_linha_bad (E : Externals) (keywords : list (str * list str))
    (portador : str) (ln : nat) (line : str) :
  itau_bad E (ln, line) = true ->
  forall s h,
    itau_linha E keywords portador (ln, line) s h
    = (Raise (valor_invalido ln), h).
Proof.
  unfold itau_bad. simpl snd. intros Hbad s h.
  apply andb_true_iff in Hbad as [H3 Hf].
  unfold itau_linha. unfold three_fields in H3. rewrite H3. cbn [negb].
  unfold bind. now rewrite parse_valor_fails.
Qed.

Lemma nubank_linha_bad (E : Externals) (keywords : list (str * list str))
    (portador : str) (line_num : nat) (row : csv_row) :
  nubank_bad E (line_num, row) = true ->
  forall s h,
    nubank_linha E keywords portador (line_num, row) s h
    = (Raise (valor_invalido line_num), h).
Proof.
  unfold nubank_bad. simpl snd. intros Hbad s h. unfold nubank_linha.
  unfold bind, lift.
  destruct (getitem row (py "Valor")) as [[raw_valor|]|e]; try discriminate.
  cbn [as_str]. now rewrite parse_valor_fails.
Qed.

(** The number [enumerate] gives a line is one more than the count of the
    lines before it. *)
Lemma combine_seq_number {A} (xs : list A) (start n : nat)
    (before after : list (nat * A)) (k : nat) (x : A) :
  combine (seq start n) xs = before ++ (k, x) :: after ->
  k = start + length before /\ nth_error xs (length before) = Some x.
Proof.
  revert xs start n; induction before as [|b before IH];
    intros xs start n H.
  - destruct n as [|n], xs as [|y xs]; simpl in H; try discriminate.
    injection H as <- <- _. simpl. split; [lia|reflexivity].
  - destruct n as [|n], xs as [|y xs]; simpl in H; try discriminate.
    injection H as _ H. apply IH in H as [-> H]. simpl. split; [lia|exact H].
Qed.

Lemma bind_raises {A B} (m : M A) (k : A -> M B) (h : history) :
  (exists e h', m h = (Raise e, h')) ->
  exists e h', bind m k h = (Raise e, h').
Proof. intros (e & h' & He). unfold bind. rewrite He. eauto. Qed.

(** C3, as the program has it: when the amount of some row does not parse,
    the invocation raises and hands back no table.  With [before] the rows
    ahead of the first such row, the exception is the row-value error with
    the line number of that row, counted from 1 (for a CSV statement, whose
    header must be complete, the reader's line counter), as soon as the loop
    over [before] goes through; when an earlier row raises instead (the classifier fails,
    or a cell of a CSV record is missing), the exception is that earlier
    one. *)
Theorem amount_failure_aborts_batch (E : Externals)
    (keywords : list (str * list str)) (banco portador text : str)
    (h : history) :
  ((if eqb (lower banco) (py "itau")
    then existsb (itau_bad E) (enumerate (splitlines text))
    else existsb (nubank_bad E) (records (DictReader E text))) = true ->
   exists e h',
     categorizar E keywords banco portador text h = (Raise e, h'))
  /\ (eqb (lower banco) (py "itau") = true ->
      forall before ln line,
        split_at_first (itau_bad E) (enumerate (splitlines text))
        = Some (before, (ln, line)) ->
        ln = S (length before)
        /\ nth_error (splitlines text) (length before) = Some line
        /\ categorizar E keywords banco portador text h
           = then_raise
               (for_each (itau_linha E keywords portador) before [] h)
               (valor_invalido ln))
  /\ (eqb (lower banco) (py "itau") = false ->
      header_ok E text = true ->
      forall before line_num row,
        split_at_first (nubank_bad E) (records (DictReader E text))
        = Some (before, (line_num, row)) ->
        categorizar E keywords banco portador text h
        = then_raise (for_each (nubank_linha E keywords portador) before [] h)
            (valor_invalido line_num)).
Proof.
  split; [|split].
  - intros Hbad. unfold categorizar. apply bind_raises.
    destruct (eqb (lower banco) (py "itau")).
    + apply existsb_exists in Hbad as ([ln line] & Hin & Hx).
      unfold itau. eapply for_each_raises; [exact Hin|].
      intros s h0. do 2 eexists. now apply itau_linha_bad.
    + apply existsb_exists in Hbad as ([n row] & Hin & Hx).
      destruct (header_ok E text) eqn:Hh.
      * rewrite nubank_complete_header by exact Hh.
        destruct (for_each_raises (nubank_linha E keywords portador)
                    (records (DictReader E text)) (n, row) Hin
                    (fun s h0 => ex_intro _ _ (ex_intro _ _
                       (nubank_linha_bad E keywords portador n row Hx s h0)))
                    [] h) as (e & h' & ->).
        eauto.
      * destruct (nubank_incomplete_header E keywords portador text h Hh)
          as (e & ->). eauto.
  - intros Hb before ln line Hfirst.
    apply split_at_first_spec in Hfirst as (after & Hrows & Hx & _).
    destruct (combine_seq_number _ _ _ _ _ _ _ Hrows) as [Hln Hline].
    split; [exact Hln|split; [exact Hline|]].
    unfold categorizar. rewrite Hb. unfold bind, itau. rewrite Hrows.
    rewrite (for_each_until _ before after (ln, line) (valor_invalido ln))
      by (now apply itau_linha_bad).
    destruct (for_each _ before [] h) as [[s|e] h1]; reflexivity.
  - intros Hb Hh before line_num row Hfirst.
    apply split_at_first_spec in Hfirst as (after & Hrows & Hx & _).
    unfold categorizar. rewrite Hb. unfold bind.
    rewrite nubank_complete_header by exact Hh. rewrite Hrows.
    rewrite (for_each_until _ before after (line_num, row)
               (valor_invalido line_num))
      by (now apply nubank_linha_bad).
    destruct (for_each _ before [] h) as [[s|e] h1]; reflexivity.
Qed.

Lemma amount_failure_aborts_batch_witness :
  2 = S (length [(1, py "04/03/2024; Supermercado Central ;-125,50")])
  /\ nth_error (splitlines Demo.itau_statement)
       (length [(1, py "04/03/2024; Supermercado Central ;-125,50")])
     = Some (py "05/03/2024;Uber viagem;abc")
  /\ categorizar Demo.answering CATEGORY_KEYWORDS (py "itau") (py "Ana")
       Demo.itau_statement []
     = then_raise
         (for_each (itau_linha Demo.answering CATEGORY_KEYWORDS (py "Ana"))
            [(1, py "04/03/2024; Supermercado Central ;-125,50")] [] [])
         (valor_invalido 2).
Proof.
  apply (proj1 (proj2 (amount_failure_aborts_batch Demo.answering
                         CATEGORY_KEYWORDS (py "itau") (py "Ana")
                         Demo.itau_statement []))
           ltac:(vm_compute; reflexivity)
           [(1, py "04/03/2024; Supermercado Central ;-125,50")] 2
           (py "05/03/2024;Uber viagem;abc")).
  vm_compute; reflexivity.
Defined.

(** C3, as stated, fails: the amount of line 2 is not a number, yet the error
    of the invocation is the failure of the classifier on line 1 and does not
    cite line 2. *)
Lemma amount_error_hidden_by_earlier_failure :
  In (2, py "05/03/2024;Uber viagem;abc")
     (enumerate (splitlines Demo.itau_statement))
  /\ itau_bad Demo.timing_out (2, py "05/03/2024;Uber viagem;abc") = true
  /\ fst (categorizar Demo.timing_out CATEGORY_KEYWORDS (py "itau")
            (py "Ana") Demo.itau_statement [])
     = Raise (HTTPException 500 (py "Erro na Groq API: Request timed out."))
  /\ fst (categorizar Demo.timing_out CATEGORY_KEYWORDS (py "itau")
            (py "Ana") Demo.itau_statement [])
     <> Raise (valor_invalido 2).
Proof.
  split; [|split; [|split]].
  - vm_compute. right; left; reflexivity.
  - vm_compute; reflexivity.
  - vm_compute; reflexivity.
  - vm_compute. discriminate.
Qed.

(** The rows ahead of the first bad line of an Itaú statement go through
    whenever the classifier answers every request, so that the error then
    cites that line. *)
Lemma itau_rows_go_through (E : Externals) (keywords : list (str * list str))
    (portador : str) (rows : list (nat * str)) :
  (forall h request, exists content, groq E h request = Content content) ->
  Forall (fun numbered => itau_bad E numbered = false) rows ->
  forall s h, exists s' h',
    for_each (itau_linha E keywords portador) rows s h = (Ret s', h').
Proof.
  intros Hgroq Hrows. induction Hrows as [|[ln line] rows Hx _ IH];
    intros s h; cbn [for_each].
  - unfold ret; eauto.
  - unfold bind.
    assert (Hstep : exists s1 h1,
               itau_linha E keywords portador (ln, line) s h = (Ret s1, h1)).
    { unfold itau_bad in Hx. simpl snd in Hx.
      destruct (three_fields line) eqn:H3.
      - simpl in Hx. unfold itau_linha. unfold three_fields in H3.
        rewrite H3. cbn [negb]. unfold bind, lift.
        destruct (parse_valor_ok E _ ln h Hx) as (v & _ & ->).
        rewrite classificar_transacao_run.
        destruct (Hgroq h (prompt keywords
                             (Some (nth 1 (map strip (split 59 line)) []))
                             (tipo_de v))) as (content & ->).
        rewrite formatar_data_run.
        destruct (dateutil_parse E _); cbn [nova_transacao]; unfold ret; eauto.
      - rewrite itau_linha_skip by exact H3. eauto. }
    destruct Hstep as (s1 & h1 & ->). apply IH.
Qed.

(** ** The remote classification adapter *)

(** C4: when the classifier's answer, stripped and lowered, is the transfer
    category, the category kept is Transferência recebida for an Entrada and
    Transferência enviada for a Saída. *)
Theorem transfer_relabelled_by_direction (E : Externals)
    (keywords : list (str * list str)) (descricao : option str)
    (tipo content : str) (h : history) :
  groq E h (prompt keywords descricao tipo) = Content content ->
  lower (strip content) = py "transferência" ->
  (tipo = py "Entrada" ->
   fst (classificar_transacao E keywords descricao tipo h)
   = Ret (py "Transferência recebida"))
  /\ (tipo = py "Saída" ->
      fst (classificar_transacao E keywords descricao tipo h)
      = Ret (py "Transferência enviada")).
Proof.
  intros Hcontent Hcat. rewrite classificar_transacao_run, Hcontent, Hcat.
  rewrite eqb_refl. cbn [fst].
  split; intros ->.
  - replace (eqb (lower (py "Entrada")) (py "entrada")) with true
      by (vm_compute; reflexivity).
    reflexivity.
  - replace (eqb (lower (py "Saída")) (py "entrada")) with false
      by (vm_compute; reflexivity).
    reflexivity.
Qed.

Lemma transfer_relabelled_by_direction_witness :
  fst (classificar_transacao Demo.transferring CATEGORY_KEYWORDS
         (Some (py "PIX Maria")) (py "Entrada") [])
  = Ret (py "Transferência recebida")
  /\ fst (classificar_transacao Demo.transferring CATEGORY_KEYWORDS
            (Some (py "PIX Maria")) (py "Saída") [])
     = Ret (py "Transferência enviada").
Proof.
  split.
  - apply (proj1 (transfer_relabelled_by_direction Demo.transferring
                    CATEGORY_KEYWORDS (Some (py "PIX Maria")) (py "Entrada")
                    (py "TRANSFERÊNCIA" ++ nl) []
                    ltac:(vm_compute; reflexivity)
                    ltac:(vm_compute; reflexivity))).
    reflexivity.
  - apply (proj2 (transfer_relabelled_by_direction Demo.transferring
                    CATEGORY_KEYWORDS (Some (py "PIX Maria")) (py "Saída")
                    (py "TRANSFERÊNCIA" ++ nl) []
                    ltac:(vm_compute; reflexivity)
                    ltac:(vm_compute; reflexivity))).
    reflexivity.
Defined.

(** ** The header of a CSV statement *)

Lemma issubset_false (s l : list str) :
  issubset s l = false -> exists f, In f s /\ ~ In f l.
Proof.
  unfold issubset. induction s as [|x s IH]; simpl; [discriminate|].
  destruct (contains l x) eqn:Hx; simpl.
  - intros H. destruct (IH H) as (f & Hf & Hn). eauto.
  - intros _. exists x. split; [now left|].
    intros Hin. apply contains_In in Hin. congruence.
Qed.

Lemma difference_In (s l : list str) (f : str) :
  In f (difference s l) <-> In f s /\ ~ In f l.
Proof.
  unfold difference. rewrite filter_In, negb_true_iff.
  rewrite <- (contains_In l f). destruct (contains l f); intuition congruence.
Qed.

(** C5: a CSV statement whose header lacks required columns is refused with
    one error, raised before any request to the classifier and whatever the
    records are; its detail lists the missing columns, each of them once the
    iteration order of the set is a rearrangement of the set. *)
Theorem missing_columns_abort_first (E : Externals)
    (keywords : list (str * list str)) (banco portador text : str)
    (names : option (list str)) (h : history) :
  (forall l, Permutation (set_order E l) l) ->
  eqb (lower banco) (py "itau") = false ->
  header (DictReader E text) = Ret names ->
  issubset required (fieldnames_or_empty names) = false ->
  exists faltando,
    categorizar E keywords banco portador text h
    = (Raise (HTTPException 400
                (py "Colunas faltando: " ++ join (py ", ") faltando)), h)
    /\ Permutation faltando
         (difference required (fieldnames_or_empty names))
    /\ faltando <> []
    /\ forall f,
         In f required ->
         ~ In f (fieldnames_or_empty names) ->
         occurs_in f (py "Colunas faltando: " ++ join (py ", ") faltando).
Proof.
  intros Hperm Hb Hnames Hh.
  exists (set_order E (difference required (fieldnames_or_empty names))).
  split; [|split; [apply Hperm|split]].
  - unfold categorizar. rewrite Hb. unfold nubank, bind, lift.
    rewrite Hnames, Hh. reflexivity.
  - destruct (issubset_false _ _ Hh) as (f & Hf & Hn).
    intros Hnil.
    assert (Hin : In f (set_order E
                          (difference required (fieldnames_or_empty names)))).
    { eapply Permutation_in; [apply Permutation_sym, Hperm|].
      apply difference_In. auto. }
    rewrite Hnil in Hin. contradiction.
  - intros f Hf Hn. apply occurs_in_app_r, occurs_in_join.
    eapply Permutation_in; [apply Permutation_sym, Hperm|].
    apply difference_In. auto.
Qed.

Lemma missing_columns_abort_first_witness :
  exists faltando,
    categorizar Demo.answering CATEGORY_KEYWORDS (py "nubank") (py "Ana")
      Demo.csv_without_columns []
    = (Raise (HTTPException 400
                (py "Colunas faltando: " ++ join (py ", ") faltando)), [])
    /\ Permutation faltando
         (difference required
            (fieldnames_or_empty (Some [py "Data"; py "Descrição"])))
    /\ faltando <> []
    /\ forall f,
         In f required ->
         ~ In f (fieldnames_or_empty (Some [py "Data"; py "Descrição"])) ->
         occurs_in f (py "Colunas faltando: " ++ join (py ", ") faltando).
Proof.
  apply (missing_columns_abort_first Demo.answering CATEGORY_KEYWORDS
           (py "nubank") (py "Ana") Demo.csv_without_columns
           (Some [py "Data"; py "Descrição"]) []).
  - intros l. apply Permutation_refl.
  - vm_compute; reflexivity.
  - vm_compute; reflexivity.
  - vm_compute; reflexivity.
Defined.

(** ** Lines of an Itaú statement *)

(** C6: a line of an Itaú statement that does not split into exactly three
    fields changes nothing and raises nothing, so that a statement gives what
    its lines of three fields alone give, under their own line numbers; a
    line of three fields is never passed over: it stops the batch or adds
    one transaction made from its fields. *)
Theorem itau_skips_other_field_counts (E : Externals)
    (keywords : list (str * list str)) (portador : str) :
  (forall numbered resultado h,
      three_fields (snd numbered) = false ->
      itau_linha E keywords portador numbered resultado h
      = (Ret resultado, h))
  /\ (forall text h,
         itau E keywords portador text h
         = for_each (itau_linha E keywords portador)
             (filter (fun numbered => three_fields (snd numbered))
                (enumerate (splitlines text))) [] h)
  /\ (forall ln line resultado h,
         three_fields line = true ->
         (exists e h',
             itau_linha E keywords portador (ln, line) resultado h
             = (Raise e, h'))
         \/ (exists t h',
                itau_linha E keywords portador (ln, line) resultado h
                = (Ret (resultado ++ [t]), h')
                /\ descricao t = strip (nth 1 (split 59 line) [])
                /\ float_of_str E
                     (replace 44 46 (nth 2 (map strip (split 59 line)) []))
                   = Some (valor t)
                /\ tipo t = tipo_de (valor t))).
Proof.
  split; [|split].
  - intros. now apply itau_linha_skip.
  - intros text h. unfold itau. apply for_each_filter.
    intros. now apply itau_linha_skip.
  - intros. now apply itau_linha_three.
Qed.

Lemma itau_skips_other_field_counts_witness :
  itau_linha Demo.answering CATEGORY_KEYWORDS (py "Ana")
    (3, py "Saldo final;10,00") [] []
  = (Ret [], []).
Proof.
  apply (proj1 (itau_skips_other_field_counts Demo.answering
                  CATEGORY_KEYWORDS (py "Ana"))
           (3, py "Saldo final;10,00") [] []).
  vm_compute; reflexivity.
Defined.

(** ** The date normaliser *)

Lemma zero_padded_digits (width : nat) (bound n : N) :
  forallb (fun k => is_digits width (zero_padded width (N.of_nat k)))
    (seq 0 (N.to_nat bound)) = true ->
  (n < bound)%N ->
  is_digits width (zero_padded width n) = true.
Proof.
  intros Hall Hn. rewrite forallb_forall in Hall.
  rewrite <- (N2Nat.id n). apply Hall. apply in_seq. lia.
Qed.

Lemma year_four_digits (n : N) :
  (1000 <= n < 10000)%N -> is_digits 4 (str_of_nat (N.to_nat n)) = true.
Proof.
  intros Hn.
  assert (Hall : forallb (fun k => is_digits 4 (str_of_nat k))
                   (seq (N.to_nat 1000) (N.to_nat 9000)) = true)
    by (vm_compute; reflexivity).
  rewrite forallb_forall in Hall. apply Hall. apply in_seq. lia.
Qed.

(** The layout of a rendered date from the year 1000 on: four digits, a
    slash, two digits, a slash, two digits. *)
Lemma strftime_Ymd_layout (dt : datetime) :
  (1000 <= year dt < 10000)%N -> (month dt < 100)%N -> (day dt < 100)%N ->
  exists y m d,
    strftime_Ymd dt = y ++ py "/" ++ m ++ py "/" ++ d
    /\ is_digits 4 y = true /\ is_digits 2 m = true /\ is_digits 2 d = true.
Proof.
  intros Hy Hm Hd.
  exists (str_of_nat (N.to_nat (year dt))), (zero_padded 2 (month dt)),
         (zero_padded 2 (day dt)).
  split; [reflexivity|].
  split; [|split].
  - apply year_four_digits; exact Hy.
  - apply (zero_padded_digits 2 100); [vm_compute; reflexivity | exact Hm].
  - apply (zero_padded_digits 2 100); [vm_compute; reflexivity | exact Hd].
Qed.

(** The date normaliser always returns.  For a string it gives the date
    rendered by [strftime_Ymd] when the parser succeeds and the string itself
    when the parser raises, whatever the exception; [None] comes back as
    [None].  No request is made to the classifier. *)
Lemma formatar_data_never_raises (E : Externals) (data : str)
    (h : history) :
  _formatar_data E (Some data) h
  = (Ret (Some (match dateutil_parse E data with
                | Ret dt => strftime_Ymd dt
                | Raise _ => data
                end)), h)
  /\ _formatar_data E None h = (Ret None, h).
Proof.
  rewrite !formatar_data_run. split; [|reflexivity].
  destruct (dateutil_parse E data); reflexivity.
Qed.

(** C7 on the code: for a string in which the parser finds 1 January of the
    year 999 the normaliser returns the nine characters 999/01/01.  However
    that text is cut at two slashes, what stands before the first is not a
    year of four digits, where the claim, like the docstring, has every date
    rendered in the one layout YYYY/MM/DD. *)
Theorem formatar_data_year_below_1000 (E : Externals) (data : str)
    (h : history) :
  dateutil_parse E data = Ret {| year := 999; month := 1; day := 1 |} ->
  _formatar_data E (Some data) h = (Ret (Some (py "999/01/01")), h)
  /\ length (py "999/01/01") = 9
  /\ forall y m d,
       py "999/01/01" = y ++ py "/" ++ m ++ py "/" ++ d ->
       is_digits 4 y = false.
Proof.
  intros Hparse. split; [|split].
  - rewrite formatar_data_run, Hparse. vm_compute; reflexivity.
  - vm_compute; reflexivity.
  - intros y m d Heq. destruct (is_digits 4 y) eqn:Hdigits; [|reflexivity].
    exfalso. unfold is_digits in Hdigits.
    apply andb_true_iff in Hdigits as [Hlen Hall].
    apply Nat.eqb_eq in Hlen.
    destruct y as [|a [|b [|c [|d' [|x y]]]]]; discriminate.
Qed.

Lemma formatar_data_year_below_1000_witness :
  _formatar_data Demo.answering (Some (py "01/01/0999")) []
  = (Ret (Some (py "999/01/01")), [])
  /\ length (py "999/01/01") = 9
  /\ forall y m d,
       py "999/01/01" = y ++ py "/" ++ m ++ py "/" ++ d ->
       is_digits 4 y = false.
Proof.
  apply (formatar_data_year_below_1000 Demo.answering (py "01/01/0999") []).
  vm_compute; reflexivity.
Defined.

(** ** Descriptions *)

(** The description of a transaction of an Itaú statement is the second
    field of its line, stripped. *)
Lemma itau_descricao_stripped (E : Externals)
    (keywords : list (str * list str)) (portador : str) (ln : nat)
    (line : str) (s s' : list TransacaoCategorizada) (h h' : history) :
  three_fields line = true ->
  itau_linha E keywords portador (ln, line) s h = (Ret s', h') ->
  exists t,
    s' = s ++ [t] /\ descricao t = strip (nth 1 (split 59 line) []).
Proof.
  intros H3 Hrun.
  destruct (itau_linha_three E keywords portador ln line s h H3)
    as [(e & h1 & Hr)|(t & h1 & Hr & Hd & _)];
    rewrite Hr in Hrun; [discriminate|].
  injection Hrun as <- _. eauto.
Qed.

(** The description of a transaction of a CSV statement is the cell of the
    record, as it was read. *)
Lemma nubank_descricao_verbatim (E : Externals)
    (keywords : list (str * list str)) (portador : str)
    (rec : nat * csv_row) (s s' : list TransacaoCategorizada)
    (h h' : history) :
  nubank_linha E keywords portador rec s h = (Ret s', h') ->
  exists t,
    s' = s ++ [t]
    /\ getitem (snd rec) (py "Descrição") = Ret (Some (descricao t)).
Proof.
  intros Hrun.
  destruct (nubank_linha_cases E keywords portador rec s h)
    as [(e & h1 & Hr)|(t & h1 & Hr & Hd & _)];
    rewrite Hr in Hrun; [discriminate|].
  injection Hrun as <- _. eauto.
Qed.

(** C8 on the code: the description cell of the record of [csv_statement]
    stands between two spaces, and the transaction returned keeps both,
    where the claim has the description stripped. *)
Theorem csv_description_keeps_whitespace :
  getitem
    (snd (hd (0, []) (records (DictReader Demo.answering Demo.csv_statement))))
    (py "Descrição")
  = Ret (Some (py " Uber viagem "))
  /\ strip (py " Uber viagem ") = py "Uber viagem"
  /\ (exists resp h',
         categorizar Demo.answering CATEGORY_KEYWORDS (py "nubank") (py "Ana")
           Demo.csv_statement [] = (Ret resp, h')
         /\ map descricao (body resp) = [py " Uber viagem "])
  /\ py " Uber viagem " <> py "Uber viagem".
Proof.
  split; [|split; [|split]].
  - vm_compute; reflexivity.
  - vm_compute; reflexivity.
  - eexists; eexists; split; vm_compute; reflexivity.
  - vm_compute. discriminate.
Qed.

(** ** The keyword table *)

(** C9: two tables with the same categories in the same order give the same
    invocation, whatever their keyword lists are: the same answer or the same
    error, after the same requests to the classifier. *)
Theorem keyword_lists_never_matter (E : Externals)
    (keywords keywords' : list (str * list str))
    (banco portador text : str) (h : history) :
  map fst keywords = map fst keywords' ->
  categorizar E keywords banco portador text h
  = categorizar E keywords' banco portador text h.
Proof.
  intros Hkeys.
  unfold categorizar, itau, nubank, itau_linha, nubank_linha,
    classificar_transacao, prompt.
  rewrite Hkeys. reflexivity.
Qed.

Lemma keyword_lists_never_matter_witness :
  categorizar Demo.answering CATEGORY_KEYWORDS (py "itau") (py "Ana")
    Demo.itau_statement []
  = categorizar Demo.answering
      (map (fun entry => (fst entry, [py "pix"])) CATEGORY_KEYWORDS)
      (py "itau") (py "Ana") Demo.itau_statement [].
Proof.
  apply (keyword_lists_never_matter Demo.answering CATEGORY_KEYWORDS
           (map (fun entry => (fst entry, [py "pix"])) CATEGORY_KEYWORDS)).
  vm_compute; reflexivity.
Defined.

(** ** Serialisation of an empty result *)

Lemma filter_nothing {A} (keep : A -> bool) (l : list A) :
  (forall x, In x l -> keep x = false) -> filter keep l = [].
Proof.
  induction l as [|x l IH]; intros H; simpl; [reflexivity|].
  rewrite (H x (or_introl eq_refl)). apply IH. intros y Hy. apply H. now right.
Qed.

(** C10: an invocation whose loop ends with no transaction raises
    [IndexError] at [resultado[0]] and returns no table.  It is so for an
    Itaú statement none of whose lines has three fields, and for a CSV
    statement with a complete header and no record, read to its end; in both
    no request is made to the classifier. *)
Theorem empty_result_fails_at_serialization (E : Externals)
    (keywords : list (str * list str)) (banco portador text : str)
    (h : history) :
  (forall h',
      (if eqb (lower banco) (py "itau")
       then itau E keywords portador text
       else nubank E keywords portador text) h = (Ret [], h') ->
      categorizar E keywords banco portador text h = (Raise IndexError, h'))
  /\ (eqb (lower banco) (py "itau") = true ->
      forallb (fun line => negb (three_fields line)) (splitlines text)
      = true ->
      categorizar E keywords banco portador text h = (Raise IndexError, h))
  /\ (eqb (lower banco) (py "itau") = false ->
      header_ok E text = true ->
      records (DictReader E text) = [] ->
      stop (DictReader E text) = None ->
      categorizar E keywords banco portador text h = (Raise IndexError, h)).
Proof.
  assert (Hgen : forall h',
             (if eqb (lower banco) (py "itau")
              then itau E keywords portador text
              else nubank E keywords portador text) h = (Ret [], h') ->
             categorizar E keywords banco portador text h
             = (Raise IndexError, h')).
  { intros h' Hrun. unfold categorizar, bind. rewrite Hrun. reflexivity. }
  split; [exact Hgen|split].
  - intros Hb Hlines. apply Hgen. rewrite Hb.
    unfold itau.
    rewrite (for_each_filter (itau_linha E keywords portador)
               (fun numbered => three_fields (snd numbered)))
      by (intros; now apply itau_linha_skip).
    rewrite filter_nothing; [reflexivity|].
    intros [ln line] Hin. apply in_combine_r in Hin.
    rewrite forallb_forall in Hlines. apply Hlines in Hin.
    now apply negb_true_iff in Hin.
  - intros Hb Hh Hrows Hstop. apply Hgen. rewrite Hb.
    rewrite nubank_complete_header by exact Hh.
    rewrite Hrows, Hstop. reflexivity.
Qed.

Lemma empty_result_fails_at_serialization_witness :
  categorizar Demo.answering CATEGORY_KEYWORDS (py "Itau") (py "Ana")
    Demo.itau_footer_only []
  = (Raise IndexError, []).
Proof.
  apply (proj1 (proj2 (empty_result_fails_at_serialization Demo.answering
                         CATEGORY_KEYWORDS (py "Itau") (py "Ana")
                         Demo.itau_footer_only []))).
  - vm_compute; reflexivity.
  - vm_compute; reflexivity.
Defined.

(** * Further properties of the endpoint *)

(** ** What the adapter hands back *)

Lemma kept_category_final (tipo content : str) :
  final_category
    (if eqb (lower (strip content)) (py "transferência")
     then if eqb (lower tipo) (py "entrada")
          then py "Transferência recebida"
          else py "Transferência enviada"
     else match strip content with
          | [] => py "Outros"
          | _ => strip content
          end).
Proof.
  unfold final_category.
  destruct (eqb (lower (strip content)) (py "transferência")) eqn:Ht.
  - destruct (eqb (lower tipo) (py "entrada"));
      (split; [vm_compute; discriminate | vm_compute; reflexivity]).
  - destruct (strip content) as [|c cs] eqn:Hs.
    + split; [vm_compute; discriminate | vm_compute; reflexivity].
    + split; [discriminate | exact Ht].
Qed.

Lemma classificar_transacao_returns (E : Externals)
    (keywords : list (str * list str)) (descricao : option str)
    (tipo c : str) (h h' : history) :
  classificar_transacao E keywords descricao tipo h = (Ret c, h') ->
  final_category c /\ h' = h ++ [prompt keywords descricao tipo].
Proof.
  rewrite classificar_transacao_run.
  destruct (groq E h (prompt keywords descricao tipo)) as [content|msg];
    [|discriminate].
  intros H. injection H as <- <-. split; [apply kept_category_final|reflexivity].
Qed.

(** X1: a category returned by the adapter is never the empty string and
    never the bare transfer category, in whatever letter case the classifier
    wrote it; it comes after exactly one request, the prompt of the call. *)
Theorem category_never_empty_nor_bare_transfer (E : Externals)
    (keywords : list (str * list str)) (descricao : option str)
    (tipo c : str) (h h' : history) :
  classificar_transacao E keywords descricao tipo h = (Ret c, h') ->
  c <> []
  /\ eqb (lower c) (py "transferência") = false
  /\ h' = h ++ [prompt keywords descricao tipo].
Proof.
  intros Hrun. apply classificar_transacao_returns in Hrun as [[Hne Hnt] Hh].
  auto.
Qed.

Lemma category_never_empty_nor_bare_transfer_witness :
  py "Transferência enviada" <> []
  /\ eqb (lower (py "Transferência enviada")) (py "transferência") = false
  /\ [prompt CATEGORY_KEYWORDS (Some (py "PIX Maria")) (py "Saída")]
     = [] ++ [prompt CATEGORY_KEYWORDS (Some (py "PIX Maria")) (py "Saída")].
Proof.
  apply (category_never_empty_nor_bare_transfer Demo.transferring
           CATEGORY_KEYWORDS (Some (py "PIX Maria")) (py "Saída")
           (py "Transferência enviada") []
           [prompt CATEGORY_KEYWORDS (Some (py "PIX Maria")) (py "Saída")]).
  vm_compute; reflexivity.
Defined.

(** X2: the adapter raises only when the remote call fails, and then only an
    HTTP 500 whose detail is the fixed prefix followed by the text of the
    failure; the request is logged all the same. *)
Theorem adapter_failure_is_http_500 (E : Externals)
    (keywords : list (str * list str)) (descricao : option str)
    (tipo : str) (e : exception) (h h' : history) :
  classificar_transacao E keywords descricao tipo h = (Raise e, h') ->
  exists msg,
    groq E h (prompt keywords descricao tipo) = Failure msg
    /\ e = HTTPException 500 (py "Erro na Groq API: " ++ msg)
    /\ h' = h ++ [prompt keywords descricao tipo].
Proof.
  rewrite classificar_transacao_run.
  destruct (groq E h (prompt keywords descricao tipo)) as [content|msg];
    [discriminate|].
  intros H. injection H as <- <-. eauto.
Qed.

Lemma adapter_failure_is_http_500_witness :
  exists msg,
    groq Demo.timing_out [] (prompt CATEGORY_KEYWORDS (Some (py "Uber"))
                               (py "Saída")) = Failure msg
    /\ HTTPException 500 (py "Erro na Groq API: Request timed out.")
       = HTTPException 500 (py "Erro na Groq API: " ++ msg)
    /\ [prompt CATEGORY_KEYWORDS (Some (py "Uber")) (py "Saída")]
       = [] ++ [prompt CATEGORY_KEYWORDS (Some (py "Uber")) (py "Saída")].
Proof.
  apply (adapter_failure_is_http_500 Demo.timing_out CATEGORY_KEYWORDS
           (Some (py "Uber")) (py "Saída")
           (HTTPException 500 (py "Erro na Groq API: Request timed out.")) []
           [prompt CATEGORY_KEYWORDS (Some (py "Uber")) (py "Saída")]).
  vm_compute; reflexivity.
Defined.

Lemma occurs_in_here (f b : str) : occurs_in f (f ++ b).
Proof. exists [], b. reflexivity. Qed.

(** X3: the request names every category of the table in force and the
    catch-all Outros, and quotes the description and the direction it was
    given. *)
Theorem prompt_names_categories_and_row
    (keywords : list (str * list str)) (descricao : option str)
    (tipo : str) :
  (forall key, In key (map fst keywords) ->
               occurs_in key (prompt keywords descricao tipo))
  /\ occurs_in (py ", Outros.") (prompt keywords descricao tipo)
  /\ occurs_in (py "'" ++ format_value descricao ++ py "'")
       (prompt keywords descricao tipo)
  /\ occurs_in (py "'" ++ tipo ++ py "'") (prompt keywords descricao tipo).
Proof.
  unfold prompt. repeat split.
  - intros key Hkey. do 2 apply occurs_in_app_r.
    destruct (occurs_in_join (py ", ") key (map fst keywords) Hkey)
      as (a & b & ->).
    exists a, (b ++ py ", Outros." ++ nl ++ py "Descrição da transação: '"
               ++ format_value descricao ++ py "'" ++ nl
               ++ py "Tipo da transação: '" ++ tipo ++ py "'" ++ nl
               ++ py "Responda apenas com o nome da categoria.").
    rewrite <- !app_assoc. reflexivity.
  - do 3 apply occurs_in_app_r. apply occurs_in_here.
  - do 5 apply occurs_in_app_r.
    replace (py "Descrição da transação: '")
      with (py "Descrição da transação: " ++ py "'")
      by (vm_compute; reflexivity).
    exists (py "Descrição da transação: "),
           (nl ++ py "Tipo da transação: '" ++ tipo ++ py "'" ++ nl
            ++ py "Responda apenas com o nome da categoria.").
    rewrite <- !app_assoc. reflexivity.
  - do 9 apply occurs_in_app_r.
    replace (py "Tipo da transação: '")
      with (py "Tipo da transação: " ++ py "'")
      by (vm_compute; reflexivity).
    exists (py "Tipo da transação: "),
           (nl ++ py "Responda apenas com o nome da categoria.").
    rewrite <- !app_assoc. reflexivity.
Qed.

(** ** The date a transaction keeps *)

(** X4: when the parser finds a date of a four-digit year, what the
    normaliser returns is that date as ten characters, year/month/day, the
    docstring's YYYY/MM/DD. *)
Theorem normalised_date_layout (E : Externals) (data : str) (dt : datetime)
    (h : history) :
  dateutil_parse E data = Ret dt ->
  (1000 <= year dt < 10000)%N ->
  (1 <= month dt <= 12)%N ->
  (1 <= day dt <= 31)%N ->
  exists y m d,
    _formatar_data E (Some data) h
    = (Ret (Some (y ++ py "/" ++ m ++ py "/" ++ d)), h)
    /\ is_digits 4 y = true /\ is_digits 2 m = true /\ is_digits 2 d = true.
Proof.
  intros Hparse Hy Hm Hd. rewrite formatar_data_run, Hparse.
  exists (str_of_nat (N.to_nat (year dt))), (zero_padded 2 (month dt)),
         (zero_padded 2 (day dt)).
  split; [reflexivity|].
  split; [|split].
  - apply year_four_digits; exact Hy.
  - apply (zero_padded_digits 2 100); [vm_compute; reflexivity | lia].
  - apply (zero_padded_digits 2 100); [vm_compute; reflexivity | lia].
Qed.

Lemma normalised_date_layout_witness :
  exists y m d,
    _formatar_data Demo.answering (Some (py "04/03/2024")) []
    = (Ret (Some (y ++ py "/" ++ m ++ py "/" ++ d)), [])
    /\ is_digits 4 y = true /\ is_digits 2 m = true /\ is_digits 2 d = true.
Proof.
  apply (normalised_date_layout Demo.answering (py "04/03/2024")
           {| year := 2024; month := 3; day := 4 |} []).
  - vm_compute; reflexivity.
  - cbn [year]; lia.
  - cbn [month]; lia.
  - cbn [day]; lia.
Defined.

(** ** The fields of a line *)

Lemma split_length (sep : N) (s : str) :
  length (split sep s) = S (count_char sep s).
Proof.
  induction s as [|c s IH]; [reflexivity|]. simpl.
  destruct (c =? sep)%N; simpl.
  - now rewrite IH.
  - destruct (split sep s) as [|p ps]; [discriminate|exact IH].
Qed.

(** X5: a line of an Itaú statement is read exactly when it holds two
    semicolons; any other line, a blank one included, is passed over. *)
Theorem three_fields_two_semicolons (line : str) :
  three_fields line = (count_char 59 line =? 2).
Proof.
  unfold three_fields. rewrite length_map, split_length. reflexivity.
Qed.

(** ** One transaction per row, in order *)

Section Appending.

Context {A T : Type} (body : A -> list T -> M (list T)).
Context (keep : A -> bool) (R : A -> T -> Prop) (req : T -> str).

(** A loop whose step passes over the elements outside [keep] and otherwise
    adds one element related to the one read, after one request, gathers the
    kept elements in order. *)
Lemma for_each_appends :
  (forall x s h, keep x = false -> body x s h = (Ret s, h)) ->
  (forall x s h s' h',
      keep x = true -> body x s h = (Ret s', h') ->
      exists t, s' = s ++ [t] /\ R x t /\ h' = h ++ [req t]) ->
  forall xs s h s' h',
    for_each body xs s h = (Ret s', h') ->
    exists ts,
      s' = s ++ ts /\ Forall2 R (filter keep xs) ts /\ h' = h ++ map req ts.
Proof.
  intros Hskip Hkeep xs; induction xs as [|x xs IH]; intros s h s' h' Hrun.
  - cbn in Hrun. injection Hrun as <- <-. exists [].
    rewrite !app_nil_r. auto.
  - cbn [for_each] in Hrun. unfold bind in Hrun.
    destruct (body x s h) as [[s1|e] h1] eqn:Hx; [|discriminate].
    cbn [filter]. destruct (keep x) eqn:Hk.
    + destruct (Hkeep x s h s1 h1 Hk Hx) as (t & -> & Ht & ->).
      destruct (IH _ _ _ _ Hrun) as (ts & -> & Hts & ->).
      exists (t :: ts). rewrite <- !app_assoc. cbn. auto.
    + rewrite (Hskip x s h Hk) in Hx. injection Hx as <- <-.
      apply IH. exact Hrun.
Qed.

End Appending.

Lemma map_snd_enumerate {A} (xs : list A) : map snd (enumerate xs) = xs.
Proof.
  unfold enumerate. generalize 1. induction xs as [|x xs IH]; intros n.
  - reflexivity.
  - cbn. now rewrite IH.
Qed.

Lemma filter_map_snd {A B} (keep : B -> bool) (l : list (A * B)) :
  map snd (filter (fun x => keep (snd x)) l) = filter keep (map snd l).
Proof.
  induction l as [|x l IH]; [reflexivity|]. cbn.
  destruct (keep (snd x)); cbn; now rewrite IH.
Qed.

Lemma Forall2_map_snd {A B T} (R : B -> T -> Prop) (l : list (A * B))
    (ts : list T) :
  Forall2 (fun x t => R (snd x) t) l ts -> Forall2 R (map snd l) ts.
Proof. induction 1; cbn; constructor; assumption. Qed.

Lemma itau_linha_row (E : Externals) (keywords : list (str * list str))
    (holder : str) (ln : nat) (line : str)
    (s s' : list TransacaoCategorizada) (h h' : history) :
  three_fields line = true ->
  itau_linha E keywords holder (ln, line) s h = (Ret s', h') ->
  exists t,
    s' = s ++ [t] /\ itau_row E holder line t
    /\ h' = h ++ [request_of keywords t].
Proof.
  unfold three_fields, itau_linha. intros ->. cbn [negb].
  unfold bind, lift, parse_valor.
  destruct (float_of_str E _) as [v|] eqn:Hv;
    unfold ret, raise; cbv beta iota; [|discriminate].
  rewrite classificar_transacao_run.
  destruct (groq E h _) as [content|msg]; [|discriminate].
  rewrite formatar_data_run. unfold itau_row, normalised_date, request_of.
  destruct (dateutil_parse E _) as [dt|e]; cbn [nova_transacao];
    intros H; injection H as <- <-;
    (eexists; split; [reflexivity|]);
    cbn [descricao valor tipo categoria data_transacao id_transacao portador];
    (split; [|reflexivity]);
    repeat (split; [reflexivity || exact Hv|]);
    apply kept_category_final.
Qed.

Lemma nubank_linha_row (E : Externals) (keywords : list (str * list str))
    (holder : str) (rec : nat * csv_row)
    (s s' : list TransacaoCategorizada) (h h' : history) :
  nubank_linha E keywords holder rec s h = (Ret s', h') ->
  exists t,
    s' = s ++ [t] /\ nubank_row E holder (snd rec) t
    /\ h' = h ++ [request_of keywords t].
Proof.
  destruct rec as [line_num row]. unfold nubank_linha. cbn [snd].
  unfold bind, lift, parse_valor, nubank_row, normalised_date, request_of.
  destruct (getitem row (py "Valor")) as [[raw_valor|]|e0];
    cbn [as_str]; [|discriminate|discriminate].
  destruct (float_of_str E _) as [v|] eqn:Hv;
    unfold ret, raise; cbv beta iota; [|discriminate].
  destruct (getitem row (py "Descrição")) as [d|e0]; [|discriminate].
  rewrite classificar_transacao_run.
  destruct (groq E h _) as [content|msg]; [|discriminate].
  destruct (getitem row (py "Data")) as [data|e0]; [|discriminate].
  rewrite formatar_data_run.
  destruct d as [d|]; [|cbn [nova_transacao]; discriminate].
  destruct data as [data|]; [|cbn [nova_transacao]; discriminate].
  destruct (dateutil_parse E data) as [dt|e0] eqn:Hdt; cbn [nova_transacao];
    intros H; injection H as <- <-;
    (eexists; split; [reflexivity|]);
    cbn [descricao valor tipo categoria data_transacao id_transacao portador];
    (split; [|reflexivity]);
    (split; [reflexivity|]);
    (split; [exists raw_valor; split; [reflexivity|exact Hv]|]);
    (split; [reflexivity|]);
    (split; [exists data; split; [reflexivity|now rewrite Hdt]|]);
    (split; [reflexivity|]); (split; [reflexivity|]);
    apply kept_category_final.
Qed.

(** The loop of the Itaú branch, read as a whole. *)
Lemma itau_returns (E : Externals) (keywords : list (str * list str))
    (holder text : str) (h h' : history)
    (resultado : list TransacaoCategorizada) :
  itau E keywords holder text h = (Ret resultado, h') ->
  Forall2 (itau_row E holder) (filter three_fields (splitlines text)) resultado
  /\ h' = h ++ map (request_of keywords) resultado.
Proof.
  unfold itau. intros Hrun.
  destruct (for_each_appends (itau_linha E keywords holder)
              (fun numbered => three_fields (snd numbered))
              (fun numbered t => itau_row E holder (snd numbered) t)
              (request_of keywords)
              (fun x s0 h0 Hk => itau_linha_skip E keywords holder x s0 h0 Hk))
    with (xs := enumerate (splitlines text)) (s := @nil TransacaoCategorizada)
         (h := h) (s' := resultado) (h' := h')
    as (ts & Hs & Hts & Hh).
  - intros [ln line] s0 h0 s1 h1 Hk Hx. cbn [snd] in *.
    now apply (itau_linha_row E keywords holder ln line s0 s1 h0 h1).
  - exact Hrun.
  - cbn in Hs. subst ts. split; [|exact Hh].
    apply Forall2_map_snd in Hts.
    now rewrite filter_map_snd, map_snd_enumerate in Hts.
Qed.

(** The loop of the CSV branch, read as a whole. *)
Lemma nubank_loop_returns (E : Externals) (keywords : list (str * list str))
    (holder : str) (rows : list (nat * csv_row)) (h h' : history)
    (resultado : list TransacaoCategorizada) :
  for_each (nubank_linha E keywords holder) rows [] h = (Ret resultado, h') ->
  Forall2 (nubank_row E holder) (map snd rows) resultado
  /\ h' = h ++ map (request_of keywords) resultado.
Proof.
  intros Hrun.
  destruct (for_each_appends (nubank_linha E keywords holder)
              (fun _ => true)
              (fun rec t => nubank_row E holder (snd rec) t)
              (request_of keywords))
    with (xs := rows) (s := @nil TransacaoCategorizada)
         (h := h) (s' := resultado) (h' := h')
    as (ts & Hs & Hts & Hh).
  - discriminate.
  - intros rec s0 h0 s1 h1 _ Hx.
    now apply (nubank_linha_row E keywords holder rec s0 s1 h0 h1).
  - exact Hrun.
  - cbn in Hs. subst ts. split; [|exact Hh].
    apply Forall2_map_snd.
    replace (filter (fun _ => true) rows) with rows in Hts; [exact Hts|].
    clear. induction rows as [|r rows IH]; cbn; congruence.
Qed.

(** X6: the table returned for an Itaú statement holds one transaction for
    each line of three fields, in the order of the file and for no other
    line.  The transaction has the stripped second field as description, the
    parsed third field as amount with its direction, the normalised first
    field as date (the field itself when it is no date), no identifier, the
    caller's holder and a category that is neither empty nor the bare
    transfer category. *)
Theorem itau_one_transaction_per_line (E : Externals)
    (keywords : list (str * list str)) (banco holder text : str)
    (h h' : history) (resp : StreamingResponse) :
  eqb (lower banco) (py "itau") = true ->
  categorizar E keywords banco holder text h = (Ret resp, h') ->
  Forall2 (itau_row E holder)
    (filter three_fields (splitlines text)) (body resp).
Proof.
  intros Hb Hrun. apply categorizar_body in Hrun. rewrite Hb in Hrun.
  now apply itau_returns in Hrun as [Hrows _].
Qed.

Lemma itau_one_transaction_per_line_witness :
  exists resp h',
    categorizar Demo.answering CATEGORY_KEYWORDS (py "itau") (py "Ana")
      itau_two_lines [] = (Ret resp, h')
    /\ Forall2 (itau_row Demo.answering (py "Ana"))
         (filter three_fields (splitlines itau_two_lines)) (body resp).
Proof.
  eexists; eexists; split.
  - vm_compute; reflexivity.
  - eapply (itau_one_transaction_per_line Demo.answering CATEGORY_KEYWORDS
              (py "itau") (py "Ana") itau_two_lines []).
    + vm_compute; reflexivity.
    + vm_compute; reflexivity.
Defined.

(** X7: the table returned for a CSV statement holds one transaction for
    each record, in the order of the reader, none being passed over.  The
    transaction has the description cell as it was read, the parsed amount
    cell with its direction, the normalised date cell, the identifier cell
    ([None] when the record has none), the caller's holder and a category
    that is neither empty nor the bare transfer category. *)
Theorem nubank_one_transaction_per_record (E : Externals)
    (keywords : list (str * list str)) (banco holder text : str)
    (h h' : history) (resp : StreamingResponse) :
  eqb (lower banco) (py "itau") = false ->
  categorizar E keywords banco holder text h = (Ret resp, h') ->
  Forall2 (nubank_row E holder)
    (map snd (records (DictReader E text))) (body resp)
  /\ length (body resp) = length (records (DictReader E text)).
Proof.
  intros Hb Hrun. apply categorizar_body in Hrun. rewrite Hb in Hrun.
  apply nubank_returns, nubank_loop_returns in Hrun as [Hrows _].
  split; [exact Hrows|].
  apply Forall2_length in Hrows. now rewrite length_map in Hrows.
Qed.

Lemma nubank_one_transaction_per_record_witness :
  exists resp h',
    categorizar Demo.answering CATEGORY_KEYWORDS (py "nubank") (py "Ana")
      Demo.csv_statement [] = (Ret resp, h')
    /\ Forall2 (nubank_row Demo.answering (py "Ana"))
         (map snd (records (DictReader Demo.answering Demo.csv_statement)))
         (body resp)
    /\ length (body resp)
       = length (records (DictReader Demo.answering Demo.csv_statement)).
Proof.
  eexists; eexists; split.
  - vm_compute; reflexivity.
  - eapply (nubank_one_transaction_per_record Demo.answering
              CATEGORY_KEYWORDS (py "nubank") (py "Ana")
              Demo.csv_statement []).
    + vm_compute; reflexivity.
    + vm_compute; reflexivity.
Defined.

(** X8: in an invocation that returns a table, the requests made to the
    classifier are exactly one per transaction of the table, in the order of
    the table, each the prompt built from that transaction's description and
    direction. *)
Theorem requests_follow_transactions (E : Externals)
    (keywords : list (str * list str)) (banco holder text : str)
    (h h' : history) (resp : StreamingResponse) :
  categorizar E keywords banco holder text h = (Ret resp, h') ->
  h' = h ++ map (request_of keywords) (body resp).
Proof.
  intros Hrun. apply categorizar_body in Hrun.
  destruct (eqb (lower banco) (py "itau")).
  - now apply itau_returns in Hrun as [_ Hh].
  - now apply nubank_returns, nubank_loop_returns in Hrun as [_ Hh].
Qed.

Lemma requests_follow_transactions_witness :
  exists resp h',
    categorizar Demo.answering CATEGORY_KEYWORDS (py "itau") (py "Ana")
      itau_two_lines [] = (Ret resp, h')
    /\ h' = [] ++ map (request_of CATEGORY_KEYWORDS) (body resp).
Proof.
  eexists; eexists; split.
  - vm_compute; reflexivity.
  - eapply (requests_follow_transactions Demo.answering CATEGORY_KEYWORDS
              (py "itau") (py "Ana") itau_two_lines []).
    vm_compute; reflexivity.
Defined.

(** X9: a table that is returned is never empty; its header is the seven
    field names of a transaction, in the order of the class, and its file
    name is the selector as the caller wrote it between categorias_ and
    .csv. *)
Theorem returned_table_shape (E : Externals)
    (keywords : list (str * list str)) (banco holder text : str)
    (h h' : history) (resp : StreamingResponse) :
  categorizar E keywords banco holder text h = (Ret resp, h') ->
  body resp <> []
  /\ fieldnames resp
     = map py ["descricao"; "valor"; "tipo"; "categoria"; "data_transacao";
               "id_transacao"; "portador"]%string
  /\ filename resp = py "categorias_" ++ banco ++ py ".csv".
Proof.
  unfold categorizar, bind, lift.
  destruct ((if eqb (lower banco) (py "itau")
             then itau E keywords holder text
             else nubank E keywords holder text) h)
    as [[resultado|e] h1]; [|discriminate].
  destruct resultado as [|t ts]; [discriminate|].
  unfold serializar. destruct (latin1 _); [|discriminate].
  intros H. injection H as <- _.
  cbn [body fieldnames filename]. repeat split. discriminate.
Qed.

Lemma returned_table_shape_witness :
  exists resp h',
    categorizar Demo.answering CATEGORY_KEYWORDS (py "Bradesco") (py "Ana")
      Demo.csv_statement [] = (Ret resp, h')
    /\ body resp <> []
    /\ fieldnames resp
       = map py ["descricao"; "valor"; "tipo"; "categoria"; "data_transacao";
                 "id_transacao"; "portador"]%string
    /\ filename resp = py "categorias_" ++ py "Bradesco" ++ py ".csv".
Proof.
  eexists; eexists; split.
  - vm_compute; reflexivity.
  - eapply (returned_table_shape Demo.answering CATEGORY_KEYWORDS
              (py "Bradesco") (py "Ana") Demo.csv_statement []).
    vm_compute; reflexivity.
Defined.

(** ** What an Itaú statement can raise *)

Lemma for_each_raise_origin {A S} (body : A -> S -> M S) (xs : list A)
    (s : S) (h h' : history) (e : exception) :
  for_each body xs s h = (Raise e, h') ->
  exists x s0 h0, In x xs /\ body x s0 h0 = (Raise e, h').
Proof.
  revert s h; induction xs as [|x xs IH]; intros s h Hrun.
  - discriminate.
  - cbn [for_each] in Hrun. unfold bind in Hrun.
    destruct (body x s h) as [[s1|e1] h1] eqn:Hx.
    + destruct (IH _ _ Hrun) as (y & s0 & h0 & Hin & Hy).
      exists y, s0, h0. split; [now right|exact Hy].
    + injection Hrun as <- <-. exists x, s, h. split; [now left|exact Hx].
Qed.

Lemma itau_linha_raise (E : Externals) (keywords : list (str * list str))
    (holder : str) (ln : nat) (line : str)
    (s : list TransacaoCategorizada) (h h' : history) (e : exception) :
  itau_linha E keywords holder (ln, line) s h = (Raise e, h') ->
  (itau_bad E (ln, line) = true /\ e = valor_invalido ln)
  \/ (exists msg, e = HTTPException 500 (py "Erro na Groq API: " ++ msg)).
Proof.
  unfold itau_linha, itau_bad, three_fields, amount_fails. cbn [snd].
  destruct (length (map strip (split 59 line)) =? 3); cbn [negb andb];
    [|discriminate].
  unfold bind, lift, parse_valor.
  destruct (float_of_str E _) as [v|];
    unfold ret, raise; cbv beta iota.
  - rewrite classificar_transacao_run.
    destruct (groq E h _) as [content|msg].
    + rewrite formatar_data_run.
      destruct (dateutil_parse E _); cbn [nova_transacao];
        intros H; discriminate H.
    + intros H. injection H as <- _. right. exists msg. reflexivity.
  - intros H. injection H as <- _. left. split; reflexivity.
Qed.

(** X10: an invocation on an Itaú statement raises nothing but the row-value
    error of a line of three fields whose amount does not parse, the HTTP 500
    of a failed classification, or the [IndexError] of a statement without
    any line of three fields. *)
Theorem itau_error_kinds (E : Externals)
    (keywords : list (str * list str)) (banco holder text : str)
    (h h' : history) (e : exception) :
  eqb (lower banco) (py "itau") = true ->
  categorizar E keywords banco holder text h = (Raise e, h') ->
  (exists ln line,
      In (ln, line) (enumerate (splitlines text))
      /\ itau_bad E (ln, line) = true /\ e = valor_invalido ln)
  \/ (exists msg, e = HTTPException 500 (py "Erro na Groq API: " ++ msg))
  \/ (e = IndexError /\ filter three_fields (splitlines text) = []).
Proof.
  intros Hb. unfold categorizar, bind, lift. rewrite Hb.
  destruct (itau E keywords holder text h) as [[resultado|e1] h1] eqn:Hloop.
  - destruct resultado as [|t ts].
    + intros H. injection H as <- _. right; right. split; [reflexivity|].
      apply itau_returns in Hloop as [Hrows _]. now inversion Hrows.
    + rewrite (serializar_latin1 banco t ts (itau_selector_latin1 banco Hb)).
      discriminate.
  - intros H. injection H as <- <-. unfold itau in Hloop.
    apply for_each_raise_origin in Hloop
      as ([ln line] & s0 & h0 & Hin & Hstep).
    apply itau_linha_raise in Hstep as [[Hbad ->]|Hgroq].
    + left. eauto.
    + right; left. exact Hgroq.
Qed.

Lemma itau_error_kinds_witness :
  (exists ln line,
      In (ln, line) (enumerate (splitlines Demo.itau_statement))
      /\ itau_bad Demo.answering (ln, line) = true
      /\ valor_invalido 2 = valor_invalido ln)
  \/ (exists msg,
         valor_invalido 2 = HTTPException 500 (py "Erro na Groq API: " ++ msg))
  \/ (valor_invalido 2 = IndexError
      /\ filter three_fields (splitlines Demo.itau_statement) = []).
Proof.
  apply (itau_error_kinds Demo.answering CATEGORY_KEYWORDS (py "itau")
           (py "Ana") Demo.itau_statement []
           [prompt CATEGORY_KEYWORDS (Some (py "Supermercado Central"))
              (py "Saída")]).
  - vm_compute; reflexivity.
  - vm_compute; reflexivity.
Defined.

(** ** How many requests an invocation makes *)

Lemma for_each_requests {A S} (body : A -> S -> M S) :
  (forall x s h, exists new,
      snd (body x s h) = h ++ new /\ length new <= 1) ->
  forall xs s h, exists new,
    snd (for_each body xs s h) = h ++ new /\ length new <= length xs.
Proof.
  intros Hstep xs; induction xs as [|x xs IH]; intros s h.
  - exists []. cbn. rewrite app_nil_r. auto.
  - cbn [for_each]. unfold bind.
    destruct (Hstep x s h) as (new1 & H1 & Hl1).
    destruct (body x s h) as [[s1|e1] h1]; cbn [snd] in H1; subst h1.
    + destruct (IH s1 (h ++ new1)) as (new2 & H2 & Hl2).
      exists (new1 ++ new2). rewrite H2, app_assoc, length_app. cbn [length].
      split; [reflexivity|lia].
    + exists new1. cbn [snd length]. split; [reflexivity|lia].
Qed.

Lemma one_request (h : history) (request : str) :
  exists new, h ++ [request] = h ++ new /\ length new <= 1.
Proof. exists [request]. auto. Qed.

Lemma no_request (h : history) :
  exists new, h = h ++ new /\ length new <= 1.
Proof. exists []. rewrite app_nil_r. cbn. auto. Qed.

Lemma itau_linha_requests (E : Externals) (keywords : list (str * list str))
    (holder : str) (numbered : nat * str)
    (s : list TransacaoCategorizada) (h : history) :
  exists new,
    snd (itau_linha E keywords holder numbered s h) = h ++ new
    /\ length new <= 1.
Proof.
  destruct numbered as [ln line]. unfold itau_linha.
  destruct (negb _); [apply no_request|].
  unfold bind, lift, parse_valor.
  destruct (float_of_str E _) as [v|];
    unfold ret, raise; cbv beta iota; [|apply no_request].
  rewrite classificar_transacao_run.
  destruct (groq E h _) as [content|msg]; [|apply one_request].
  rewrite formatar_data_run.
  destruct (nova_transacao _ _ _ _ _ _ _); apply one_request.
Qed.

Lemma nubank_linha_requests (E : Externals)
    (keywords : list (str * list str)) (holder : str) (rec : nat * csv_row)
    (s : list TransacaoCategorizada) (h : history) :
  exists new,
    snd (nubank_linha E keywords holder rec s h) = h ++ new
    /\ length new <= 1.
Proof.
  destruct rec as [line_num row]. unfold nubank_linha.
  unfold bind, lift, parse_valor.
  destruct (getitem row (py "Valor")) as [[raw_valor|]|e0];
    cbn [as_str]; [|apply no_request|apply no_request].
  destruct (float_of_str E _) as [v|];
    unfold ret, raise; cbv beta iota; [|apply no_request].
  destruct (getitem row (py "Descrição")) as [d|e0]; [|apply no_request].
  rewrite classificar_transacao_run.
  destruct (groq E h _) as [content|msg]; [|apply one_request].
  destruct (getitem row (py "Data")) as [data|e0]; [|apply one_request].
  rewrite formatar_data_run.
  destruct (nova_transacao _ _ _ _ _ _ _); apply one_request.
Qed.

Lemma filter_three_fields_length (lines : list str) :
  length (filter (fun numbered : nat * str => three_fields (snd numbered))
            (enumerate lines))
  = length (filter three_fields lines).
Proof.
  rewrite <- (length_map snd), filter_map_snd, map_snd_enumerate.
  reflexivity.
Qed.

(** X11: whatever its outcome, an invocation only adds requests to the log,
    and no more than one for each line of three fields of an Itaú statement
    or for each record of a CSV statement; a line passed over costs no
    request. *)
Theorem at_most_one_request_per_row (E : Externals)
    (keywords : list (str * list str)) (banco holder text : str)
    (h : history) :
  exists new,
    snd (categorizar E keywords banco holder text h) = h ++ new
    /\ length new
       <= (if eqb (lower banco) (py "itau")
           then length (filter three_fields (splitlines text))
           else length (records (DictReader E text))).
Proof.
  assert (Hser : forall (m : M (list TransacaoCategorizada)),
             snd (bind m (fun resultado => lift (serializar banco resultado)) h)
             = snd (m h)).
  { intros m. unfold bind, lift. destruct (m h) as [[r|e] h1]; reflexivity. }
  unfold categorizar. rewrite Hser.
  destruct (eqb (lower banco) (py "itau")).
  - unfold itau.
    rewrite (for_each_filter (itau_linha E keywords holder)
               (fun numbered => three_fields (snd numbered)))
      by (intros; now apply itau_linha_skip).
    rewrite <- filter_three_fields_length.
    apply for_each_requests. apply itau_linha_requests.
  - destruct (header_ok E text) eqn:Hh.
    + rewrite nubank_complete_header by exact Hh.
      destruct (for_each_requests (nubank_linha E keywords holder)
                  (nubank_linha_requests E keywords holder)
                  (records (DictReader E text)) [] h) as (new & Hnew & Hl).
      exists new. split; [|exact Hl].
      destruct (for_each _ _ [] h) as [[r|e] h1]; exact Hnew.
    + destruct (nubank_incomplete_header E keywords holder text h Hh)
        as (e & ->).
      exists []. cbn. rewrite app_nil_r. split; [reflexivity|lia].
Qed.

(** ** The selector of the Itaú branch *)

(** X12: the selector of the Itaú branch is read without regard to letter
    case: a selector whose lower-case form is itau gives what the selector
    itau gives on the same file, the name of the attachment apart. *)
Theorem itau_selector_ignores_case (E : Externals)
    (keywords : list (str * list str)) (banco holder text : str)
    (h : history) :
  eqb (lower banco) (py "itau") = true ->
  outcome (categorizar E keywords banco holder text h)
  = outcome (categorizar E keywords (py "itau") holder text h).
Proof.
  intros Hb. unfold categorizar. rewrite Hb.
  replace (eqb (lower (py "itau")) (py "itau")) with true
    by (vm_compute; reflexivity).
  unfold outcome, bind, lift.
  destruct (itau E keywords holder text h) as [[resultado|e] h'].
  - destruct resultado as [|t ts]; [reflexivity|].
    rewrite (serializar_latin1 banco t ts (itau_selector_latin1 banco Hb)).
    rewrite (serializar_latin1 (py "itau") t ts)
      by (vm_compute; reflexivity).
    reflexivity.
  - reflexivity.
Qed.

Lemma itau_selector_ignores_case_witness :
  outcome (categorizar Demo.answering CATEGORY_KEYWORDS (py "ITAU")
             (py "Ana") itau_two_lines [])
  = outcome (categorizar Demo.answering CATEGORY_KEYWORDS (py "itau")
               (py "Ana") itau_two_lines []).
Proof.
  apply (itau_selector_ignores_case Demo.answering CATEGORY_KEYWORDS
           (py "ITAU") (py "Ana") itau_two_lines []).
  vm_compute; reflexivity.
Defined.

(** ** Records with missing cells *)

Lemma nubank_linha_no_amount (E : Externals)
    (keywords : list (str * list str)) (holder : str) (line_num : nat)
    (row : csv_row) :
  getitem row (py "Valor") = Ret None ->
  forall s h,
    nubank_linha E keywords holder (line_num, row) s h
    = (Raise AttributeError, h).
Proof.
  intros Hcell s h. unfold nubank_linha, bind, lift. rewrite Hcell.
  reflexivity.
Qed.

(** X13: in a CSV statement with a complete header, a record too short to
    reach the amount column stops the batch with an [AttributeError], not
    with the row-value error, as soon as the records before it have gone
    through; no request is made for it. *)
Theorem missing_amount_cell_raises_attribute_error (E : Externals)
    (keywords : list (str * list str)) (banco holder text : str)
    (before after : list (nat * csv_row)) (line_num : nat) (row : csv_row)
    (h : history) :
  eqb (lower banco) (py "itau") = false ->
  header_ok E text = true ->
  records (DictReader E text) = before ++ (line_num, row) :: after ->
  getitem row (py "Valor") = Ret None ->
  categorizar E keywords banco holder text h
  = then_raise (for_each (nubank_linha E keywords holder) before [] h)
      AttributeError.
Proof.
  intros Hb Hh Hrows Hcell. unfold categorizar. rewrite Hb. unfold bind.
  rewrite nubank_complete_header by exact Hh. rewrite Hrows.
  rewrite (for_each_until _ before after (line_num, row) AttributeError)
    by (now apply nubank_linha_no_amount).
  destruct (for_each _ before [] h) as [[s|e] h1]; reflexivity.
Qed.

Lemma missing_amount_cell_raises_attribute_error_witness :
  categorizar Demo.answering CATEGORY_KEYWORDS (py "nubank") (py "Ana")
    short_csv_statement []
  = then_raise
      (for_each (nubank_linha Demo.answering CATEGORY_KEYWORDS (py "Ana"))
         [] [] [])
      AttributeError.
Proof.
  apply (missing_amount_cell_raises_attribute_error Demo.answering
           CATEGORY_KEYWORDS (py "nubank") (py "Ana") short_csv_statement
           [] []  2
           [(py "Data", Some (py "2024-03-04"));
            (py "Descrição", Some (py "Uber viagem"));
            (py "Valor", None); (py "Identificador", None)] []).
  - vm_compute; reflexivity.
  - vm_compute; reflexivity.
  - vm_compute; reflexivity.
  - vm_compute; reflexivity.
Defined.

Lemma occurs_in_none_prompt (keywords : list (str * list str)) (tipo : str) :
  occurs_in (py "'None'") (prompt keywords None tipo).
Proof.
  unfold prompt. do 5 apply occurs_in_app_r. cbn [format_value].
  replace (py "Descrição da transação: '")
    with (py "Descrição da transação: " ++ py "'")
    by (vm_compute; reflexivity).
  replace (py "'None'") with (py "'" ++ py "None" ++ py "'")
    by (vm_compute; reflexivity).
  exists (py "Descrição da transação: "),
         (nl ++ py "Tipo da transação: '" ++ tipo ++ py "'" ++ nl
          ++ py "Responda apenas com o nome da categoria.").
  rewrite <- !app_assoc. reflexivity.
Qed.

(** X14: a record that has an amount but no description cell is still sent
    to the classifier, with the word None as its description; when the
    classifier answers, the batch stops all the same, with the
    [ValidationError] of the transaction that cannot be built. *)
Theorem missing_description_costs_a_request (E : Externals)
    (keywords : list (str * list str)) (banco holder text : str)
    (before after : list (nat * csv_row)) (line_num : nat) (row : csv_row)
    (s : list TransacaoCategorizada) (raw_valor content : str) (v : float)
    (data : option str) (h h1 : history) :
  eqb (lower banco) (py "itau") = false ->
  header_ok E text = true ->
  records (DictReader E text) = before ++ (line_num, row) :: after ->
  for_each (nubank_linha E keywords holder) before [] h = (Ret s, h1) ->
  getitem row (py "Valor") = Ret (Some raw_valor) ->
  float_of_str E (replace 44 46 raw_valor) = Some v ->
  getitem row (py "Descrição") = Ret None ->
  getitem row (py "Data") = Ret data ->
  groq E h1 (prompt keywords None (tipo_de v)) = Content content ->
  categorizar E keywords banco holder text h
  = (Raise ValidationError, h1 ++ [prompt keywords None (tipo_de v)])
  /\ occurs_in (py "'None'") (prompt keywords None (tipo_de v)).
Proof.
  intros Hb Hh Hrows Hbefore Hval Hfloat Hdesc Hdata Hgroq.
  split; [|apply occurs_in_none_prompt].
  unfold categorizar. rewrite Hb. unfold bind at 1.
  rewrite nubank_complete_header by exact Hh.
  rewrite Hrows, for_each_app, Hbefore. cbn [for_each]. unfold bind at 1.
  assert (Hstep : nubank_linha E keywords holder (line_num, row) s h1
                  = (Raise ValidationError,
                     h1 ++ [prompt keywords None (tipo_de v)])).
  { unfold nubank_linha, bind, lift, parse_valor.
    rewrite Hval. cbn [as_str]. rewrite Hfloat. unfold ret; cbv beta iota.
    rewrite Hdesc, classificar_transacao_run, Hgroq, Hdata.
    rewrite formatar_data_run. reflexivity. }
  rewrite Hstep. reflexivity.
Qed.

Lemma missing_description_costs_a_request_witness :
  categorizar Demo.answering CATEGORY_KEYWORDS (py "nubank") (py "Ana")
    csv_without_description []
  = (Raise ValidationError,
     [] ++ [prompt CATEGORY_KEYWORDS None (tipo_de (-32)%float)])
  /\ occurs_in (py "'None'")
       (prompt CATEGORY_KEYWORDS None (tipo_de (-32)%float)).
Proof.
  apply (missing_description_costs_a_request Demo.answering
           CATEGORY_KEYWORDS (py "nubank") (py "Ana") csv_without_description
           [] [] 2
           [(py "Valor", Some (py "-32.00"));
            (py "Data", Some (py "04/03/2024"));
            (py "Descrição", None); (py "Identificador", None)]
           [] (py "-32.00") (py "Transporte") (-32)%float
           (Some (py "04/03/2024")) [] []).
  - vm_compute; reflexivity.
  - vm_compute; reflexivity.
  - vm_compute; reflexivity.
  - vm_compute; reflexivity.
  - vm_compute; reflexivity.
  - vm_compute; reflexivity.
  - vm_compute; reflexivity.
  - vm_compute; reflexivity.
  - vm_compute; reflexivity.
Defined.
